(** * langflow_runner: a shallow embedding of [src/langflow_runner.py]

    The program is a command-line client: it merges environment defaults
    with command-line arguments, validates them, optionally uploads a
    file, sends one HTTP POST and prints / saves the JSON answer.

    Modelling conventions.
    - A Python [str] is a Rocq [string], one character per code point;
      the model covers the code points below 256 (the two pictographs
      of the program's own messages are written as their UTF-8 bytes).
    - A Python value that came out of [json.loads] / [response.json()]
      (or goes into [json.dumps]) is a [json] tree; [None] is [JNull],
      a [dict] is an association list in insertion order.
    - Exceptions, standard output, the network and the file system are
      explicit: [main] and [run_flow] live in a small state-and-error
      monad over a [world] that logs every effect.
    - Code of other packages ([json.loads], [requests.post],
      [langflow.load.upload_file], [Path.is_file], [open]) is a record
      of collaborators, [externals], over which everything is
      parameterised. *)

From Stdlib Require Import String Ascii List ZArith Bool Lia DecimalString.
Import ListNotations.
Local Open Scope string_scope.
Set Warnings "-register-all".

(* ================================================================= *)
(** ** Strings as Python sees them *)

Module PyStr.

(** The double quote and the backslash, and the line feed. *)
Definition dquote : string := String "034"%char EmptyString.
Definition backslash : string := String "092"%char EmptyString.
Definition newline : string := String "010"%char EmptyString.

(** [not s] for a value that is [None] or a [str]. *)
Definition falsy (o : option string) : bool :=
  match o with
  | None => true
  | Some EmptyString => true
  | Some (String _ _) => false
  end.

(** What an f-string prints for an [Optional[str]]. *)
Definition format (o : option string) : string :=
  match o with
  | None => "None"
  | Some s => s
  end.

(** [str(n)] for an [int]. *)
Definition of_int (z : Z) : string := NilZero.string_of_int (Z.to_int z).

(** [needle in hay]. *)
Fixpoint contains (needle hay : string) : bool :=
  prefix needle hay
  || match hay with
     | EmptyString => false
     | String _ rest => contains needle rest
     end.

(** [sep.join(parts)]. *)
Fixpoint join (sep : string) (parts : list string) : string :=
  match parts with
  | [] => ""
  | [p] => p
  | p :: rest => p ++ sep ++ join sep rest
  end.

(** [" " * n]. *)
Fixpoint spaces (n : nat) : string :=
  match n with
  | O => ""
  | S k => String " "%char (spaces k)
  end.

(** [str.isspace] on one character (code points below 256). *)
Definition isspace (c : ascii) : bool :=
  let n := nat_of_ascii c in
  (((9 <=? n) && (n <=? 13)) || ((28 <=? n) && (n <=? 32))
   || (n =? 133) || (n =? 160))%nat.

Fixpoint lstrip (s : string) : string :=
  match s with
  | EmptyString => EmptyString
  | String c rest => if isspace c then lstrip rest else s
  end.

(** Strips trailing white space: a character is kept when something
    that is not white space follows it or it is not white space. *)
Fixpoint rstrip (s : string) : string :=
  match s with
  | EmptyString => EmptyString
  | String c rest =>
      match rstrip rest with
      | EmptyString => if isspace c then EmptyString else String c EmptyString
      | kept => String c kept
      end
  end.

(** [s.strip()]. *)
Definition strip (s : string) : string := rstrip (lstrip s).

(** [s.split(",")]: the pieces between the commas, never an empty list. *)
Fixpoint split_comma (s : string) : list string :=
  match s with
  | EmptyString => [EmptyString]
  | String c rest =>
      if Ascii.eqb c ","%char then EmptyString :: split_comma rest
      else match split_comma rest with
           | [] => [String c EmptyString]
           | piece :: pieces => String c piece :: pieces
           end
  end.

(** Every character of the text is white space. *)
Fixpoint blank (s : string) : bool :=
  match s with
  | EmptyString => true
  | String c rest => isspace c && blank rest
  end.

(** The text begins, or ends, with a white space character. *)
Definition starts_blank (s : string) : bool :=
  match s with
  | EmptyString => false
  | String c _ => isspace c
  end.

Fixpoint ends_blank (s : string) : bool :=
  match s with
  | EmptyString => false
  | String c EmptyString => isspace c
  | String _ rest => ends_blank rest
  end.

(** The number of commas of a text. *)
Fixpoint commas (s : string) : nat :=
  match s with
  | EmptyString => 0
  | String c rest => (if Ascii.eqb c ","%char then 1 else 0) + commas rest
  end.

End PyStr.

(* ================================================================= *)
(** ** JSON values and [json.dumps] *)

(** A float is kept as the text [float.__repr__] gives for it ([json.dumps]
    prints exactly that text for a finite float). *)
Inductive json : Type :=
| JNull
| JBool (b : bool)
| JInt (z : Z)
| JFloat (repr : string)
| JStr (s : string)
| JArr (items : list json)
| JObj (members : list (string * json)).

Module Json.

(** Python truth value of a JSON value ([if tweaks:]). *)
Definition truthy (j : json) : bool :=
  match j with
  | JNull => false
  | JBool b => b
  | JInt z => negb (z =? 0)%Z
  | JFloat r => negb (String.eqb r "0.0" || String.eqb r "-0.0")
  | JStr s => negb (String.eqb s "")
  | JArr items => match items with [] => false | _ :: _ => true end
  | JObj members => match members with [] => false | _ :: _ => true end
  end.

(** [d[k] = v]: replaces in place, appends a new key at the end. *)
Fixpoint set_item (k : string) (v : json) (members : list (string * json))
  : list (string * json) :=
  match members with
  | [] => [(k, v)]
  | (k', v') :: rest =>
      if String.eqb k k' then (k, v) :: rest
      else (k', v') :: set_item k v rest
  end.

Definition hex_digit (n : nat) : ascii :=
  if (n <? 10)%nat then ascii_of_nat (48 + n) else ascii_of_nat (87 + n).

(** ['\\u{0:04x}'.format(n)] for [n < 256]. *)
Definition u_escape (n : nat) : string :=
  PyStr.backslash ++ "u00"
    ++ String (hex_digit (n / 16)) (String (hex_digit (n mod 16)) EmptyString).

(** One character under [ESCAPE_ASCII] / [ESCAPE_DCT] of
    [json.encoder] ([ensure_ascii] is on by default). *)
Definition escape_char (c : ascii) : string :=
  let n := nat_of_ascii c in
  if (n =? 34)%nat then PyStr.backslash ++ PyStr.dquote
  else if (n =? 92)%nat then PyStr.backslash ++ PyStr.backslash
  else if (n =? 8)%nat then PyStr.backslash ++ "b"
  else if (n =? 12)%nat then PyStr.backslash ++ "f"
  else if (n =? 10)%nat then PyStr.backslash ++ "n"
  else if (n =? 13)%nat then PyStr.backslash ++ "r"
  else if (n =? 9)%nat then PyStr.backslash ++ "t"
  else if ((32 <=? n) && (n <=? 126))%nat then String c EmptyString
  else u_escape n.

Fixpoint escape (s : string) : string :=
  match s with
  | EmptyString => EmptyString
  | String c rest => escape_char c ++ escape rest
  end.

(** [py_encode_basestring_ascii]. *)
Definition encode_str (s : string) : string :=
  PyStr.dquote ++ escape s ++ PyStr.dquote.

(** ['\n' + _indent * level], empty when no indent was asked for. *)
Definition newline_indent (indent : option nat) (level : nat) : string :=
  match indent with
  | None => ""
  | Some n => PyStr.newline ++ PyStr.spaces (n * level)
  end.

(** The item separator: [", "] without indent, [","] and a fresh line
    with it. *)
Definition separator (indent : option nat) (level : nat) : string :=
  match indent with
  | None => ", "
  | Some _ => "," ++ newline_indent indent level
  end.

(** [_iterencode] of [json.encoder], at nesting depth [level]. *)
Fixpoint encode (indent : option nat) (level : nat) (j : json) : string :=
  match j with
  | JNull => "null"
  | JBool true => "true"
  | JBool false => "false"
  | JInt z => PyStr.of_int z
  | JFloat r => r
  | JStr s => encode_str s
  | JArr items =>
      match items with
      | [] => "[]"
      | _ :: _ =>
          "[" ++ newline_indent indent (S level)
            ++ PyStr.join (separator indent (S level))
                 (map (encode indent (S level)) items)
            ++ newline_indent indent level ++ "]"
      end
  | JObj members =>
      match members with
      | [] => "{}"
      | _ :: _ =>
          "{" ++ newline_indent indent (S level)
            ++ PyStr.join (separator indent (S level))
                 (map (fun kv => encode_str (fst kv) ++ ": "
                                   ++ encode indent (S level) (snd kv))
                      members)
            ++ newline_indent indent level ++ "}"
      end
  end.

(** [json.dumps(obj, indent=indent)]. *)
Definition dumps (indent : option nat) (j : json) : string :=
  encode indent 0 j.

(** No line feed in a text. *)
Fixpoint one_line (s : string) : bool :=
  match s with
  | EmptyString => true
  | String c rest => negb (Ascii.eqb c "010"%char) && one_line rest
  end.

(** The floats of a value are printed on one line each (as every
    [float.__repr__] is). *)
Fixpoint plain_floats (j : json) : bool :=
  match j with
  | JFloat r => one_line r
  | JArr items => forallb plain_floats items
  | JObj members => forallb (fun kv => plain_floats (snd kv)) members
  | _ => true
  end.




End Json.

(* ================================================================= *)
(** ** Exceptions *)

(** The exception classes the program raises or catches. *)
Inductive exn_class : Type :=
| Exception
| ValueError
| JSONDecodeError
| OSError
| FileNotFoundError
| ImportError
| UnboundLocalError
| RequestException
| HTTPError.

(** [EnvironmentError] and [IOError] are Python 3 names of [OSError]. *)
Definition EnvironmentError : exn_class := OSError.
Definition IOError : exn_class := OSError.

Module Exn.

Definition eqb (c d : exn_class) : bool :=
  match c, d with
  | Exception, Exception | ValueError, ValueError
  | JSONDecodeError, JSONDecodeError | OSError, OSError
  | FileNotFoundError, FileNotFoundError | ImportError, ImportError
  | UnboundLocalError, UnboundLocalError
  | RequestException, RequestException | HTTPError, HTTPError => true
  | _, _ => false
  end.

(** The direct base class ([requests]' exceptions derive from
    [IOError]). *)
Definition base (c : exn_class) : option exn_class :=
  match c with
  | Exception => None
  | ValueError => Some Exception
  | JSONDecodeError => Some ValueError
  | OSError => Some Exception
  | FileNotFoundError => Some OSError
  | ImportError => Some Exception
  | UnboundLocalError => Some Exception
  | RequestException => Some OSError
  | HTTPError => Some RequestException
  end.

Fixpoint issubclass_upto (depth : nat) (c d : exn_class) : bool :=
  eqb c d
  || match depth with
     | O => false
     | S k => match base c with
              | None => false
              | Some b => issubclass_upto k b d
              end
     end.

(** [issubclass(c, d)]; no class of the table is deeper than three. *)
Definition issubclass (c d : exn_class) : bool := issubclass_upto 3 c d.

End Exn.

(** A raised exception: its class and [str(e)]. *)
Record exn : Type := Raise { exn_cls : exn_class; exn_str : string }.

(* ================================================================= *)
(** ** The world: standard output, network, written files *)

Inductive net_event : Type :=
| Post (url : string) (payload : json) (headers : list (string * string))
| Upload (file_path host flow_id : string) (components : list string)
         (tweaks : json).

Record world : Type := World {
  stdout : list string;              (* one entry per [print] *)
  network : list net_event;          (* every request attempted, in order *)
  files : list (string * string)     (* files written, latest first *)
}.

Definition initial_world : world := World [] [] [].

(** The content of a written file. *)
Fixpoint read_file (path : string) (fs : list (string * string))
  : option string :=
  match fs with
  | [] => None
  | (p, content) :: rest =>
      if String.eqb path p then Some content else read_file path rest
  end.

(* ================================================================= *)
(** ** A state-and-error monad *)

Inductive outcome (A : Type) : Type :=
| Returns (a : A)
| Raises (e : exn).
Arguments Returns {A} a.
Arguments Raises {A} e.

Definition M (A : Type) : Type := world -> outcome A * world.

Definition ret {A} (a : A) : M A := fun w => (Returns a, w).

Definition bind {A B} (m : M A) (k : A -> M B) : M B :=
  fun w =>
    match m w with
    | (Returns a, w') => k a w'
    | (Raises e, w') => (Raises e, w')
    end.

Definition raise {A} (c : exn_class) (msg : string) : M A :=
  fun w => (Raises (Raise c msg), w).

Notation "x <- m ;; k" := (bind m (fun x => k))
  (at level 61, m at next level, right associativity).
Notation "m ;; k" := (bind m (fun _ => k))
  (at level 61, right associativity).

(** The [except] clauses of a [try], in order. *)
Definition handlers (B : Type) : Type := list (exn_class * (exn -> M B)).

(** The first clause whose class the exception is an instance of. *)
Fixpoint dispatch {B} (hs : handlers B) (e : exn) : M B :=
  match hs with
  | [] => fun w => (Raises e, w)
  | (c, h) :: rest =>
      if Exn.issubclass (exn_cls e) c then h e else dispatch rest e
  end.

(** [try: body  except ...]. *)
Definition try_except {B} (body : M B) (hs : handlers B) : M B :=
  fun w =>
    match body w with
    | (Returns b, w') => (Returns b, w')
    | (Raises e, w') => dispatch hs e w'
    end.

(** [try: x = first; rest  except ...], where the [except] clauses read
    the local [x]: it is bound ([Some]) only once [first] has returned. *)
Definition try_let {A B} (first : M A) (rest : A -> M B)
           (hs : option A -> handlers B) : M B :=
  fun w =>
    match first w with
    | (Raises e, w') => dispatch (hs None) e w'
    | (Returns x, w') =>
        match rest x w' with
        | (Returns b, w'') => (Returns b, w'')
        | (Raises e, w'') => dispatch (hs (Some x)) e w''
        end
    end.

(** [print(s)]. *)
Definition print (s : string) : M unit :=
  fun w => (Returns tt, World (stdout w ++ [s])%list (network w) (files w)).

(* ================================================================= *)
(** ** The collaborators *)

(** What [requests] hands back: a response object. *)
Record response : Type := Response {
  status_code : Z;
  reason : string;
  url : string;
  text : string;
  json_body : string + json     (* [inl msg]: [.json()] raises, [str(e) = msg] *)
}.

(** [requests.post] returns a response or raises.  It raises classes
    such as [ConnectionError] and [Timeout], never [HTTPError], which
    only [raise_for_status] raises; [msg] is [str(e)]. *)
Inductive post_result : Type :=
| Post_raises (msg : string)
| Post_returns (r : response).

Record externals : Type := Externals {
  (** [json.loads]; [inl msg] is a [JSONDecodeError]. *)
  json_loads : string -> string + json;
  (** [langflow.load.upload_file], [None] when the import failed;
      [inl msg] is an exception of the upload. *)
  upload_file :
    option (string -> string -> string -> list string -> json -> string + json);
  (** [Path(p).is_file()] and [str(Path(p))]. *)
  is_file : string -> bool;
  path_str : string -> string;
  (** [requests.post(url, json=payload, headers=headers)]. *)
  requests_post : string -> json -> list (string * string) -> post_result;
  (** [open(path, "w")]: [Some msg] is an [IOError]. *)
  open_w : string -> option string
}.

(** The module-level values read with [os.getenv]. *)
Record environ : Type := Environ {
  LANGFLOW_ID : option string;
  FLOW_ID : option string;
  APPLICATION_TOKEN : option string
}.

(** The command line as typed: an option that was not given is [None]. *)
Record cli : Type := Cli {
  cli_message : string;
  cli_endpoint : option string;
  cli_tweaks : option string;
  cli_application_token : option string;
  cli_output_type : option string;
  cli_input_type : option string;
  cli_upload_file : option string;
  cli_components : option string;
  cli_save_output : option string;
  cli_verbose : bool;
  cli_raw : bool
}.

(** [args], the namespace [parse_args] returns. *)
Record args : Type := Args {
  arg_message : string;
  arg_endpoint : option string;
  arg_tweaks : string;
  arg_application_token : option string;
  arg_output_type : string;
  arg_input_type : string;
  arg_upload_file : option string;
  arg_components : option string;
  arg_save_output : option string;
  arg_verbose : bool;
  arg_raw : bool
}.

(* ================================================================= *)
(** ** The program *)

Definition BASE_API_URL : string := "https://api.langflow.astra.datastax.com".

Definition DEFAULT_TWEAKS : json :=
  JObj [ ("AstraDBToolComponent-Dg6cx", JObj []);
         ("ParseData-r4Fhk", JObj []);
         ("GroqModel-ZMgtx", JObj []);
         ("ChatInput-D9hjW", JObj []);
         ("ChatOutput-ee0wn", JObj []);
         ("CombineText-SgCav", JObj []) ].

(** The placeholder looked for in the application token. *)
Definition PLACEHOLDER : string := "<YOUR_APPLICATION_TOKEN>".

(** The messages of the exceptions [main] raises. *)
Definition token_message : string :=
  "❌ Please set your actual APPLICATION_TOKEN via --application_token or .env file".
Definition endpoint_message : string :=
  "Missing flow ID. Please provide --endpoint or set FLOW_ID in your .env file.".
Definition tweaks_message : string := "Invalid tweaks JSON string".
Definition import_message : string :=
  "Langflow is not installed. Install it with: pip install langflow".
Definition components_message : string :=
  "You must provide --components to upload a file".
Definition file_message (path : string) : string :=
  "❌ File '" ++ path ++ "' does not exist.".
Definition missing_message (missing : list string) : string :=
  "Missing required environment variable(s): " ++ PyStr.join ", " missing
    ++ ". " ++ "Set them in your .env file or via command-line arguments.".

(** [{"error": msg}]. *)
Definition error_dict (msg : string) : json := JObj [("error", JStr msg)].

(** [Response.raise_for_status] of [requests]. *)
Definition is_error_status (r : response) : bool :=
  ((400 <=? status_code r) && (status_code r <? 600))%Z.

Definition http_error_msg (r : response) : string :=
  if ((400 <=? status_code r) && (status_code r <? 500))%Z then
    PyStr.of_int (status_code r) ++ " Client Error: " ++ reason r
      ++ " for url: " ++ url r
  else if ((500 <=? status_code r) && (status_code r <? 600))%Z then
    PyStr.of_int (status_code r) ++ " Server Error: " ++ reason r
      ++ " for url: " ++ url r
  else "".

Definition raise_for_status (r : response) : M unit :=
  match http_error_msg r with
  | EmptyString => ret tt
  | msg => raise HTTPError msg
  end.

(** [response.json()]. *)
Definition response_json (r : response) : M json :=
  match json_body r with
  | inr j => ret j
  | inl msg => raise JSONDecodeError msg
  end.

Section Program.

Variable env : environ.
Variable ext : externals.

(** [json.loads(s)]. *)
Definition loads (s : string) : M json :=
  match json_loads ext s with
  | inr j => ret j
  | inl msg => raise JSONDecodeError msg
  end.

(** [requests.post(...)]: the attempt is logged, then the collaborator
    answers. *)
Definition post (api_url : string) (payload : json)
           (headers : list (string * string)) : M response :=
  fun w =>
    let w' := World (stdout w)
                    (network w ++ [Post api_url payload headers])%list
                    (files w) in
    match requests_post ext api_url payload headers with
    | Post_returns r => (Returns r, w')
    | Post_raises msg => (Raises (Raise RequestException msg), w')
    end.

(** A call of the upload capability: logged as a network event. *)
Definition call_upload
           (up : string -> string -> string -> list string -> json
                 -> string + json)
           (file_path host flow_id : string) (components : list string)
           (tweaks : json) : M json :=
  fun w =>
    let w' := World (stdout w)
                    (network w
                       ++ [Upload file_path host flow_id components tweaks])%list
                    (files w) in
    match up file_path host flow_id components tweaks with
    | inr tweaks' => (Returns tweaks', w')
    | inl msg => (Raises (Raise Exception msg), w')
    end.

(** [with open(path, "w") as f: json.dump(obj, f, indent=2)]: the file
    holds the text once it has been opened. *)
Definition dump_to (path : string) (obj : json) : M unit :=
  fun w =>
    match open_w ext path with
    | Some msg => (Raises (Raise IOError msg), w)
    | None =>
        (Returns tt,
         World (stdout w) (network w)
               ((path, Json.dumps (Some 2) obj) :: files w))
    end.

Definition validate_env_vars : M unit :=
  let missing : list string := [] in
  let missing :=
    if PyStr.falsy (LANGFLOW_ID env)
    then (missing ++ ["LANGFLOW_ID"])%list
    else missing in
  let missing :=
    if PyStr.falsy (FLOW_ID env)
    then (missing ++ ["FLOW_ID"])%list
    else missing in
  let missing :=
    if PyStr.falsy (APPLICATION_TOKEN env)
    then (missing ++ ["APPLICATION_TOKEN"])%list
    else missing in
  match missing with
  | [] => ret tt
  | _ :: _ => raise EnvironmentError (missing_message missing)
  end.

(** The URL, the headers and the body [run_flow] sends. *)
Definition api_url_of (endpoint : string) : string :=
  BASE_API_URL ++ "/lf/" ++ PyStr.format (LANGFLOW_ID env)
    ++ "/api/v1/run/" ++ endpoint.

Definition headers_of (application_token : option string)
  : list (string * string) :=
  [ ("Authorization", "Bearer " ++ PyStr.format application_token);
    ("Content-Type", "application/json") ].

Definition payload_of (message output_type input_type : string)
           (tweaks : json) : json :=
  let payload :=
    [ ("input_value", JStr message);
      ("output_type", JStr output_type);
      ("input_type", JStr input_type) ] in
  let payload :=
    if Json.truthy tweaks then Json.set_item "tweaks" tweaks payload
    else payload in
  JObj payload.

(** [run_flow].  [logger.debug] writes nothing: the logging level of
    the module is [INFO]. *)
Definition run_flow (message endpoint output_type input_type : string)
           (tweaks : json) (application_token : option string)
           (verbose : bool) : M json :=
  let api_url := api_url_of endpoint in
  let headers := headers_of application_token in
  let payload := payload_of message output_type input_type tweaks in
  (if verbose
   then let _ := Json.dumps (Some 2) payload in ret tt
   else ret tt) ;;
  try_let
    (post api_url payload headers)
    (fun response =>
       raise_for_status response ;;
       response_json response)
    (fun response =>
       [ (HTTPError,
          fun e =>
            match response with
            | Some r =>
                ret (error_dict ("HTTP " ++ PyStr.of_int (status_code r)
                                   ++ ": " ++ text r))
            | None => raise UnboundLocalError "response"
            end);
         (Exception, fun e => ret (error_dict (exn_str e))) ]).

(** [parser.parse_args()]: the defaults of the options not given. *)
Definition parse_args (c : cli) : args :=
  let default {A} (given : option A) (d : A) : A :=
    match given with Some v => v | None => d end in
  Args (cli_message c)
       (match cli_endpoint c with
        | Some e => Some e
        | None => FLOW_ID env
        end)
       (default (cli_tweaks c) (Json.dumps None DEFAULT_TWEAKS))
       (match cli_application_token c with
        | Some t => Some t
        | None => APPLICATION_TOKEN env
        end)
       (default (cli_output_type c) "chat")
       (default (cli_input_type c) "chat")
       (cli_upload_file c)
       (cli_components c)
       (cli_save_output c)
       (cli_verbose c)
       (cli_raw c).

(** Lines 123-136 of [main]: the checks on the merged arguments. *)
Definition resolve (a : args) : M json :=
  (match arg_application_token a with
   | None => raise ValueError token_message
   | Some EmptyString => raise ValueError token_message
   | Some token =>
       if PyStr.contains PLACEHOLDER token
       then raise ValueError token_message
       else ret tt
   end) ;;
  (if PyStr.falsy (arg_endpoint a)
   then raise ValueError endpoint_message
   else ret tt) ;;
  tweaks <- try_except
              (loads (arg_tweaks a))
              [ (JSONDecodeError, fun _ => raise ValueError tweaks_message) ] ;;
  validate_env_vars ;;
  ret tweaks.

(** Lines 139-157 of [main]: the optional file upload. *)
Definition attach (a : args) (tweaks : json) : M json :=
  match arg_upload_file a with
  | None => ret tweaks
  | Some EmptyString => ret tweaks
  | Some path =>
      match upload_file ext with
      | None => raise ImportError import_message
      | Some up =>
          if negb (is_file ext path)
          then raise FileNotFoundError (file_message path)
          else
            match arg_components a with
            | None => raise ValueError components_message
            | Some EmptyString => raise ValueError components_message
            | Some components =>
                let components_list :=
                  map PyStr.strip (PyStr.split_comma components) in
                call_upload up (path_str ext path) BASE_API_URL
                            (PyStr.format (arg_endpoint a))
                            components_list tweaks
            end
      end
  end.

(** Lines 171-183 of [main]: print, then save when asked to. *)
Definition output (a : args) (response : json) : M unit :=
  (if arg_raw a
   then print (Json.dumps None response)
   else print (Json.dumps (Some 2) response)) ;;
  match arg_save_output a with
  | None => ret tt
  | Some EmptyString => ret tt
  | Some path =>
      try_except
        (dump_to path response ;;
         print ("✅ Output saved to " ++ path))
        [ (IOError,
           fun e => print ("❌ Failed to save output: " ++ exn_str e)) ]
  end.

Definition main (c : cli) : M unit :=
  let a := parse_args c in
  tweaks <- resolve a ;;
  tweaks <- attach a tweaks ;;
  response <- run_flow (arg_message a) (PyStr.format (arg_endpoint a))
                       (arg_output_type a) (arg_input_type a) tweaks
                       (arg_application_token a) (arg_verbose a) ;;
  output a response.

(** *** The stages in closed form

    What [resolve] computes, written without the monad; [resolve_run]
    below proves it equal to the code. *)

(** The token passes the first check of [main]. *)
Definition token_ok (token : option string) : bool :=
  negb (PyStr.falsy token)
  && match token with
     | Some t => negb (PyStr.contains PLACEHOLDER t)
     | None => false
     end.

(** The names [validate_env_vars] reports. *)
Definition missing_vars : list string :=
  ((if PyStr.falsy (LANGFLOW_ID env) then ["LANGFLOW_ID"] else [])
     ++ (if PyStr.falsy (FLOW_ID env) then ["FLOW_ID"] else [])
     ++ (if PyStr.falsy (APPLICATION_TOKEN env)
         then ["APPLICATION_TOKEN"] else []))%list.

(** The four checks of [resolve], one after the other. *)
Definition resolution (a : args) : outcome json :=
  if negb (token_ok (arg_application_token a))
  then Raises (Raise ValueError token_message)
  else if PyStr.falsy (arg_endpoint a)
  then Raises (Raise ValueError endpoint_message)
  else match json_loads ext (arg_tweaks a) with
       | inl _ => Raises (Raise ValueError tweaks_message)
       | inr tweaks =>
           match missing_vars with
           | [] => Returns tweaks
           | _ :: _ =>
               Raises (Raise EnvironmentError (missing_message missing_vars))
           end
       end.

End Program.

(* ================================================================= *)
(** ** Sample collaborators, for running the program on examples *)

Module Sample.

Definition bad_tweaks : string := "{bad".

(** A [json.loads] that knows three texts: the default tweaks, the
    empty object and one malformed text. *)
Definition loads (s : string) : string + json :=
  if String.eqb s (Json.dumps None DEFAULT_TWEAKS) then inr DEFAULT_TWEAKS
  else if String.eqb s "{}" then inr (JObj [])
  else inl "Expecting property name enclosed in double quotes: line 1 column 2 (char 1)".

(** An upload that records the path under each component. *)
Definition upload (file_path host flow_id : string)
           (components : list string) (tweaks : json) : string + json :=
  inr (JObj (map (fun c => (c, JObj [("path", JStr file_path)])) components)).

Definition ok_response : response :=
  Response 200 "OK" "https://api.langflow.astra.datastax.com/lf/ns/api/v1/run/my_chat"
           ("{" ++ PyStr.dquote ++ "result" ++ PyStr.dquote ++ ": "
                ++ PyStr.dquote ++ "ok" ++ PyStr.dquote ++ "}")
           (inr (JObj [("result", JStr "ok")])).

Definition error_response : response :=
  Response 500 "Internal Server Error"
           "https://api.langflow.astra.datastax.com/lf/ns/api/v1/run/my_chat"
           "server error"
           (inl "Expecting value: line 1 column 1 (char 0)").

(** A machine with langflow installed, no file on disk, a service
    that answers [r] and a writable disk. *)
Definition machine (r : post_result) : externals :=
  Externals loads (Some upload) (fun _ => false) (fun p => p)
            (fun _ _ _ => r) (fun _ => None).

(** The same machine without langflow. *)
Definition bare_machine (r : post_result) : externals :=
  Externals loads None (fun _ => false) (fun p => p)
            (fun _ _ _ => r) (fun _ => None).

(** The same machine with the file [data.csv] on disk. *)
Definition machine_with_file (r : post_result) : externals :=
  Externals loads (Some upload) (fun p => String.eqb p "data.csv")
            (fun p => p) (fun _ _ _ => r) (fun _ => None).

Definition full_env : environ :=
  Environ (Some "ns") (Some "flow-1") (Some "ENVTOKEN").

Definition empty_env : environ := Environ None None None.

(** [python langflow_runner.py "Hello!"] with nothing else. *)
Definition hello : cli :=
  Cli "Hello!" None None None None None None None None false false.

(** [python langflow_runner.py "Hello!" --endpoint my_chat
    --application_token ABC123], the first example of the help text. *)
Definition hello_explicit : cli :=
  Cli "Hello!" (Some "my_chat") None (Some "ABC123") None None None None
      None false false.

(** [python langflow_runner.py "Hello!" --raw --save_output out.json]. *)
Definition hello_raw_saved : cli :=
  Cli "Hello!" None None None None None None None (Some "out.json")
      false true.

(** The service answers [{"result": "ok"}]. *)
Definition answering : externals := machine (Post_returns ok_response).

End Sample.

(* ================================================================= *)
(** ** The program on examples *)

Example dumps_compact :
  Json.dumps None (JObj [("result", JStr "ok"); ("n", JArr [JInt 1; JInt (-2)])])
  = "{" ++ PyStr.dquote ++ "result" ++ PyStr.dquote ++ ": "
        ++ PyStr.dquote ++ "ok" ++ PyStr.dquote ++ ", "
        ++ PyStr.dquote ++ "n" ++ PyStr.dquote ++ ": [1, -2]}".
Proof. reflexivity. Qed.

Example dumps_indented :
  Json.dumps (Some 2) (JObj [("result", JStr "ok"); ("n", JArr [JInt 1; JObj []])])
  = "{" ++ PyStr.newline
        ++ "  " ++ PyStr.dquote ++ "result" ++ PyStr.dquote ++ ": "
        ++ PyStr.dquote ++ "ok" ++ PyStr.dquote ++ "," ++ PyStr.newline
        ++ "  " ++ PyStr.dquote ++ "n" ++ PyStr.dquote ++ ": [" ++ PyStr.newline
        ++ "    1," ++ PyStr.newline
        ++ "    {}" ++ PyStr.newline
        ++ "  ]" ++ PyStr.newline
        ++ "}".
Proof. reflexivity. Qed.

Example dumps_escapes :
  Json.dumps None (JStr ("a" ++ PyStr.dquote ++ PyStr.newline ++ String "233"%char ""))
  = PyStr.dquote ++ "a" ++ PyStr.backslash ++ PyStr.dquote
      ++ PyStr.backslash ++ "n" ++ PyStr.backslash ++ "u00e9" ++ PyStr.dquote.
Proof. reflexivity. Qed.

Example split_and_strip :
  map PyStr.strip (PyStr.split_comma "ParseData-r4Fhk, ChatInput-D9hjW ,,x")
  = ["ParseData-r4Fhk"; "ChatInput-D9hjW"; ""; "x"].
Proof. reflexivity. Qed.

Example hello_runs :
  main Sample.full_env (Sample.machine (Post_returns Sample.ok_response))
    Sample.hello initial_world
  = (Returns tt,
     World [Json.dumps (Some 2) (JObj [("result", JStr "ok")])]
           [Post "https://api.langflow.astra.datastax.com/lf/ns/api/v1/run/flow-1"
                 (JObj [("input_value", JStr "Hello!");
                        ("output_type", JStr "chat");
                        ("input_type", JStr "chat");
                        ("tweaks", DEFAULT_TWEAKS)])
                 [("Authorization", "Bearer ENVTOKEN");
                  ("Content-Type", "application/json")]]
           []).
Proof. vm_compute. reflexivity. Qed.

(* ================================================================= *)
(** ** Strings: containment, lengths *)

Lemma append_nonempty (s t : string) (c : ascii) :
  s ++ String c t <> "".
Proof. destruct s; discriminate. Qed.

Lemma length_append (s t : string) :
  String.length (s ++ t) = String.length s + String.length t.
Proof. induction s as [|c s IH]; simpl; [reflexivity | now rewrite IH]. Qed.

Lemma prefix_append (s t : string) : prefix s (s ++ t) = true.
Proof.
  induction s as [|c s IH]; simpl.
  - now destruct t.
  - destruct (ascii_dec c c) as [_|ne]; [exact IH | now destruct ne].
Qed.

Lemma contains_unfold (needle hay : string) :
  PyStr.contains needle hay
  = prefix needle hay
    || match hay with
       | EmptyString => false
       | String _ rest => PyStr.contains needle rest
       end.
Proof. now destruct hay. Qed.

(** A text that has [needle] somewhere inside contains it. *)
Lemma contains_inside (needle before after : string) :
  PyStr.contains needle (before ++ needle ++ after) = true.
Proof.
  induction before as [|c before IH].
  - rewrite contains_unfold. change ("" ++ needle ++ after) with (needle ++ after).
    now rewrite prefix_append.
  - change (String c before ++ needle ++ after)
      with (String c (before ++ needle ++ after)).
    rewrite contains_unfold, IH. apply orb_true_r.
Qed.

Lemma contains_self (s : string) : PyStr.contains s s = true.
Proof.
  rewrite contains_unfold.
  assert (E : prefix s s = true).
  { induction s as [|c s IH]; simpl; [reflexivity|].
    destruct (ascii_dec c c) as [_|ne]; [exact IH | now destruct ne]. }
  now rewrite E.
Qed.

(* ================================================================= *)
(** ** The compact form of [json.dumps] is one line *)

Section JsonInduction.

Variable P : json -> Prop.
Hypothesis P_null : P JNull.
Hypothesis P_bool : forall b, P (JBool b).
Hypothesis P_int : forall z, P (JInt z).
Hypothesis P_float : forall r, P (JFloat r).
Hypothesis P_str : forall s, P (JStr s).
Hypothesis P_arr : forall items, Forall P items -> P (JArr items).
Hypothesis P_obj :
  forall members, Forall (fun kv => P (snd kv)) members -> P (JObj members).

(** Induction on a JSON value, with the property known of the items of
    an array and of the values of an object. *)
Lemma json_induction : forall j, P j.
Proof.
  fix IH 1. intros [ | b | z | r | s | items | members ].
  - exact P_null.
  - apply P_bool.
  - apply P_int.
  - apply P_float.
  - apply P_str.
  - apply P_arr. induction items as [|x items IHitems]; constructor.
    + apply IH.
    + exact IHitems.
  - apply P_obj. induction members as [|[k v] members IHmembers]; constructor.
    + apply IH.
    + exact IHmembers.
Qed.

End JsonInduction.

Lemma one_line_app (s t : string) :
  Json.one_line (s ++ t) = Json.one_line s && Json.one_line t.
Proof.
  induction s as [|c s IH]; simpl; [reflexivity|].
  now rewrite IH, andb_assoc.
Qed.

Lemma one_line_escape_char (c : ascii) :
  Json.one_line (Json.escape_char c) = true.
Proof. destruct c as [[] [] [] [] [] [] [] []]; reflexivity. Qed.

Lemma one_line_encode_str (s : string) :
  Json.one_line (Json.encode_str s) = true.
Proof.
  unfold Json.encode_str. rewrite !one_line_app.
  assert (E : Json.one_line (Json.escape s) = true).
  { induction s as [|c s IH]; simpl; [reflexivity|].
    now rewrite one_line_app, one_line_escape_char, IH. }
  now rewrite E.
Qed.

Lemma one_line_of_int (z : Z) : Json.one_line (PyStr.of_int z) = true.
Proof.
  unfold PyStr.of_int.
  assert (U : forall d, Json.one_line (NilEmpty.string_of_uint d) = true)
    by (induction d; simpl; auto).
  assert (V : forall d, Json.one_line (NilZero.string_of_uint d) = true)
    by (intros [ | d | d | d | d | d | d | d | d | d | d ]; simpl;
        auto; apply U).
  destruct (Z.to_int z) as [d|d]; simpl; auto.
Qed.

Lemma one_line_join (sep : string) (parts : list string) :
  Json.one_line sep = true ->
  Forall (fun p => Json.one_line p = true) parts ->
  Json.one_line (PyStr.join sep parts) = true.
Proof.
  intros Hs H. induction H as [|p parts Hp Hparts IH]; [reflexivity|].
  destruct parts as [|q parts]; [exact Hp|].
  change (PyStr.join sep (p :: q :: parts))
    with (p ++ sep ++ PyStr.join sep (q :: parts)).
  now rewrite !one_line_app, Hp, Hs, IH.
Qed.

(** Without indent [json.dumps] breaks no line, at any nesting depth. *)
Lemma compact_one_line (j : json) :
  forall level,
    Json.plain_floats j = true ->
    Json.one_line (Json.encode None level j) = true.
Proof.
  induction j as [ | b | z | r | s | items IH | members IH ]
    using json_induction; intros level Hp.
  - reflexivity.
  - now destruct b.
  - apply one_line_of_int.
  - exact Hp.
  - apply one_line_encode_str.
  - destruct items as [|x items]; [reflexivity|].
    change (Json.encode None level (JArr (x :: items)))
      with ("[" ++ "" ++ PyStr.join ", "
                         (map (Json.encode None (S level)) (x :: items))
                ++ "" ++ "]").
    rewrite !one_line_app, one_line_join; [reflexivity | reflexivity |].
    change (forallb Json.plain_floats (x :: items) = true) in Hp.
    rewrite forallb_forall in Hp.
    apply Forall_forall. intros p Hin. apply in_map_iff in Hin.
    destruct Hin as (y & <- & Hy).
    rewrite Forall_forall in IH. apply IH; auto.
  - destruct members as [|kv members]; [reflexivity|].
    change (Json.encode None level (JObj (kv :: members)))
      with ("{" ++ "" ++ PyStr.join ", "
                         (map (fun kv => Json.encode_str (fst kv) ++ ": "
                                           ++ Json.encode None (S level) (snd kv))
                              (kv :: members))
                ++ "" ++ "}").
    rewrite !one_line_app, one_line_join; [reflexivity | reflexivity |].
    change (forallb (fun kv => Json.plain_floats (snd kv)) (kv :: members)
            = true) in Hp.
    rewrite forallb_forall in Hp.
    apply Forall_forall. intros p Hin. apply in_map_iff in Hin.
    destruct Hin as (y & <- & Hy).
    rewrite Forall_forall in IH.
    rewrite !one_line_app, one_line_encode_str. apply (IH y Hy). auto.
Qed.

(* ================================================================= *)
(** ** The flow invocation *)

Section RunFlow.

Variable env : environ.
Variable ext : externals.

(** [raise_for_status] raises exactly on the statuses 400 to 599. *)
Lemma raise_for_status_error (r : response) (w : world) :
  is_error_status r = true ->
  raise_for_status r w = (Raises (Raise HTTPError (http_error_msg r)), w).
Proof.
  unfold is_error_status, raise_for_status, http_error_msg. intros H.
  destruct ((400 <=? status_code r) && (status_code r <? 500))%Z eqn:E4.
  - destruct (_ ++ _) eqn:E; [now apply append_nonempty in E | reflexivity].
  - assert (E5 : ((500 <=? status_code r) && (status_code r <? 600))%Z = true)
      by lia.
    rewrite E5.
    destruct (_ ++ _) eqn:E; [now apply append_nonempty in E | reflexivity].
Qed.

Lemma raise_for_status_fine (r : response) (w : world) :
  is_error_status r = false ->
  raise_for_status r w = (Returns tt, w).
Proof.
  unfold is_error_status, raise_for_status, http_error_msg. intros H.
  assert (E4 : ((400 <=? status_code r) && (status_code r <? 500))%Z = false)
    by lia.
  assert (E5 : ((500 <=? status_code r) && (status_code r <? 600))%Z = false)
    by lia.
  now rewrite E4, E5.
Qed.

(** The verbose branch of [run_flow] does nothing one can see. *)
Lemma verbose_silent (verbose : bool) (w : world) :
  (if verbose then ret tt else ret tt) w = (Returns tt, w).
Proof. now destruct verbose. Qed.

(** [run_flow] sends exactly one POST and touches nothing else. *)
Lemma run_flow_world (message endpoint output_type input_type : string)
      (tweaks : json) (application_token : option string) (verbose : bool)
      (w : world) :
  snd (run_flow env ext message endpoint output_type input_type tweaks
                application_token verbose w)
  = World (stdout w)
          (network w
             ++ [Post (api_url_of env endpoint)
                      (payload_of message output_type input_type tweaks)
                      (headers_of application_token)])
          (files w).
Proof.
  unfold run_flow, bind, try_let, post. cbv zeta. rewrite verbose_silent.
  destruct (requests_post ext _ _ _) as [msg|r]; [reflexivity|].
  destruct (is_error_status r) eqn:Es.
  - now rewrite raise_for_status_error.
  - rewrite raise_for_status_fine by assumption.
    unfold response_json. now destruct (json_body r).
Qed.

End RunFlow.

(** C1.  [run_flow] never raises: whatever [requests] does, the call
    returns a value.  An answer with an error status (400 to 599) gives
    [{"error": "HTTP <status>: <body text>"}]; an exception of the
    transport, or of the JSON decoding of the body, gives
    [{"error": str(e)}]; any other answer gives its parsed JSON body as
    it is. *)
Theorem run_flow_never_raises
        (env : environ) (ext : externals)
        (message endpoint output_type input_type : string) (tweaks : json)
        (application_token : option string) (verbose : bool) (w : world) :
  fst (run_flow env ext message endpoint output_type input_type tweaks
                application_token verbose w)
  = Returns
      match requests_post ext (api_url_of env endpoint)
                          (payload_of message output_type input_type tweaks)
                          (headers_of application_token) with
      | Post_raises msg => JObj [("error", JStr msg)]
      | Post_returns r =>
          if ((400 <=? status_code r) && (status_code r <? 600))%Z
          then JObj [("error",
                      JStr ("HTTP " ++ PyStr.of_int (status_code r)
                              ++ ": " ++ text r))]
          else match json_body r with
               | inr body => body
               | inl msg => JObj [("error", JStr msg)]
               end
      end.
Proof.
  unfold run_flow, bind, try_let, post. cbv zeta. rewrite verbose_silent.
  destruct (requests_post ext _ _ _) as [msg|r].
  - (* the transport raised: not an [HTTPError], the second clause *)
    reflexivity.
  - fold (is_error_status r). destruct (is_error_status r) eqn:Es.
    + (* [raise_for_status] raised, with [response] bound *)
      now rewrite raise_for_status_error.
    + rewrite raise_for_status_fine by assumption.
      unfold response_json. now destruct (json_body r).
Qed.

(** The HTTP 500 of the specification, through [run_flow]. *)
Example http_500 :
  fst (run_flow Sample.full_env
                (Sample.machine (Post_returns Sample.error_response))
                "Hello!" "my_chat" "chat" "chat" DEFAULT_TWEAKS
                (Some "ABC123") false initial_world)
  = Returns (JObj [("error", JStr "HTTP 500: server error")]).
Proof. reflexivity. Qed.

(** C7.  The body [run_flow] sends is the object with the fields
    [input_value] (the message), [output_type] and [input_type], in
    that order, followed by a [tweaks] field exactly when the tweaks
    are true in Python's sense: a non-empty mapping is sent, an empty
    mapping and [None] are not. *)
Theorem run_flow_payload
        (env : environ) (ext : externals)
        (message endpoint output_type input_type : string) (tweaks : json)
        (members : list (string * json))
        (application_token : option string) (verbose : bool) (w : world) :
  let required := [ ("input_value", JStr message);
                    ("output_type", JStr output_type);
                    ("input_type", JStr input_type) ] in
  network (snd (run_flow env ext message endpoint output_type input_type
                         tweaks application_token verbose w))
  = (network w
       ++ [Post (api_url_of env endpoint)
                (payload_of message output_type input_type tweaks)
                (headers_of application_token)])%list
  /\ payload_of message output_type input_type tweaks
     = JObj (required
               ++ if Json.truthy tweaks then [("tweaks", tweaks)] else [])%list
  /\ payload_of message output_type input_type (JObj members)
     = JObj (required
               ++ match members with
                  | [] => []
                  | _ :: _ => [("tweaks", JObj members)]
                  end)%list
  /\ payload_of message output_type input_type JNull = JObj required.
Proof.
  intros required. rewrite run_flow_world. simpl network.
  repeat split.
  - unfold payload_of. now destruct (Json.truthy tweaks).
  - now destruct members.
Qed.

(** C8.  With the flow namespace [L] in [LANGFLOW_ID], [run_flow] on the
    endpoint [E] posts to
    [https://api.langflow.astra.datastax.com/lf/L/api/v1/run/E]. *)
Theorem run_flow_url
        (L E : string) (flow_id token : option string) (ext : externals)
        (message output_type input_type : string) (tweaks : json)
        (application_token : option string) (verbose : bool) (w : world) :
  network (snd (run_flow (Environ (Some L) flow_id token) ext message E
                         output_type input_type tweaks application_token
                         verbose w))
  = (network w
       ++ [Post ("https://api.langflow.astra.datastax.com/lf/" ++ L
                   ++ "/api/v1/run/" ++ E)
                (payload_of message output_type input_type tweaks)
                (headers_of application_token)])%list.
Proof. now rewrite run_flow_world. Qed.

(* ================================================================= *)
(** ** Configuration resolution *)

Section Resolution.

Variable env : environ.
Variable ext : externals.

Lemma validate_env_vars_run (w : world) :
  validate_env_vars env w
  = (match missing_vars env with
     | [] => Returns tt
     | _ :: _ =>
         Raises (Raise EnvironmentError (missing_message (missing_vars env)))
     end, w).
Proof.
  unfold validate_env_vars, missing_vars.
  destruct (PyStr.falsy (LANGFLOW_ID env)), (PyStr.falsy (FLOW_ID env)),
    (PyStr.falsy (APPLICATION_TOKEN env)); reflexivity.
Qed.

Lemma missing_vars_nil :
  missing_vars env = [] <->
  PyStr.falsy (LANGFLOW_ID env) = false
  /\ PyStr.falsy (FLOW_ID env) = false
  /\ PyStr.falsy (APPLICATION_TOKEN env) = false.
Proof.
  unfold missing_vars.
  destruct (PyStr.falsy (LANGFLOW_ID env)), (PyStr.falsy (FLOW_ID env)),
    (PyStr.falsy (APPLICATION_TOKEN env)); simpl; split;
    try discriminate; auto; intros (? & ? & ?); discriminate.
Qed.

(** [resolve] has no effect on the world. *)
Lemma resolve_run (a : args) (w : world) :
  resolve env ext a w = (resolution env ext a, w).
Proof.
  unfold resolve, resolution, token_ok, bind.
  destruct (arg_application_token a) as [[|c t]|]; try reflexivity.
  cbn [PyStr.falsy negb andb].
  destruct (PyStr.contains PLACEHOLDER (String c t)); [reflexivity|].
  cbn [negb].
  unfold ret at 1.
  destruct (PyStr.falsy (arg_endpoint a)); [reflexivity|].
  unfold ret at 1. unfold try_except, loads.
  destruct (json_loads ext (arg_tweaks a)) as [msg|tweaks]; [reflexivity|].
  unfold ret at 1. rewrite validate_env_vars_run.
  now destruct (missing_vars env).
Qed.

(** An exception of [resolve] is the exception of [main]. *)
Lemma main_stops_in_resolve (c : cli) (w : world) (e : exn) :
  resolution env ext (parse_args env c) = Raises e ->
  main env ext c w = (Raises e, w).
Proof.
  intros H. unfold main, bind. now rewrite resolve_run, H.
Qed.

(** The exceptions of [resolve] other than the missing-variable one
    are [ValueError]s. *)
Lemma resolution_value_error (a : args) :
  token_ok (arg_application_token a) = false
  \/ PyStr.falsy (arg_endpoint a) = true
  \/ (exists msg, json_loads ext (arg_tweaks a) = inl msg) ->
  exists msg,
    resolution env ext a = Raises (Raise ValueError msg)
    /\ (msg = token_message \/ msg = endpoint_message
        \/ msg = tweaks_message).
Proof.
  unfold resolution. intros H.
  destruct (token_ok (arg_application_token a)); simpl negb; cbv iota;
    [|eauto].
  destruct (PyStr.falsy (arg_endpoint a)); [eauto|].
  destruct H as [H|[H|[m H]]]; try discriminate.
  rewrite H. eauto.
Qed.

End Resolution.

(* ================================================================= *)
(** ** The file attachment *)

Section Attachment.

Variable env : environ.
Variable ext : externals.

(** The three guards of the upload block, in the order of the code. *)
Lemma attach_guards (a : args) (path : string) (tweaks : json) (w : world) :
  arg_upload_file a = Some path -> path <> "" ->
  attach ext a tweaks w
  = match upload_file ext with
    | None => (Raises (Raise ImportError import_message), w)
    | Some up =>
        if negb (is_file ext path)
        then (Raises (Raise FileNotFoundError (file_message path)), w)
        else if PyStr.falsy (arg_components a)
        then (Raises (Raise ValueError components_message), w)
        else call_upload up (path_str ext path) BASE_API_URL
                         (PyStr.format (arg_endpoint a))
                         (map PyStr.strip
                              (PyStr.split_comma
                                 (PyStr.format (arg_components a))))
                         tweaks w
    end.
Proof.
  intros Hp Hne. unfold attach. rewrite Hp.
  destruct path as [|c path]; [now destruct Hne|].
  destruct (upload_file ext) as [up|]; [|reflexivity].
  destruct (negb (is_file ext (String c path))); [reflexivity|].
  now destruct (arg_components a) as [[|c' comps]|].
Qed.

(** Without a file to upload the tweaks go through unchanged. *)
Lemma attach_nothing (a : args) (tweaks : json) (w : world) :
  PyStr.falsy (arg_upload_file a) = true ->
  attach ext a tweaks w = (Returns tweaks, w).
Proof.
  unfold attach. now destruct (arg_upload_file a) as [[|c p]|].
Qed.

(** A missing file or missing components stop [attach] before the
    upload: the world is as it was. *)
Lemma attach_stops (a : args) (path : string) (tweaks : json) (w : world) :
  arg_upload_file a = Some path -> path <> "" ->
  is_file ext path = false \/ PyStr.falsy (arg_components a) = true ->
  exists e, attach ext a tweaks w = (Raises e, w).
Proof.
  intros Hp Hne H. rewrite (attach_guards a path tweaks w Hp Hne).
  destruct (upload_file ext) as [up|]; [|eauto].
  destruct (is_file ext path); simpl negb; cbv iota; [|eauto].
  destruct H as [H|H]; [discriminate|]. rewrite H. eauto.
Qed.

(** [attach] prints nothing and writes no file. *)
Lemma attach_quiet (a : args) (tweaks : json) (w : world) :
  stdout (snd (attach ext a tweaks w)) = stdout w
  /\ files (snd (attach ext a tweaks w)) = files w.
Proof.
  unfold attach.
  destruct (arg_upload_file a) as [[|c p]|]; auto.
  destruct (upload_file ext) as [up|]; auto.
  destruct (negb (is_file ext (String c p))); auto.
  destruct (arg_components a) as [[|c' comps]|]; auto.
  unfold call_upload. now destruct (up _ _ _ _ _).
Qed.

(** An exception of [attach] is the exception of [main]. *)
Lemma main_stops_in_attach (c : cli) (w w' : world) (tweaks : json)
      (e : exn) :
  resolution env ext (parse_args env c) = Returns tweaks ->
  attach ext (parse_args env c) tweaks w = (Raises e, w') ->
  main env ext c w = (Raises e, w').
Proof.
  intros Hr Ha. unfold main, bind. now rewrite resolve_run, Hr, Ha.
Qed.

(** With an upload that cannot go through, [main] stops with an
    exception and the world untouched. *)
Lemma main_stops_before_upload (c : cli) (path : string) (w : world) :
  cli_upload_file c = Some path -> path <> "" ->
  is_file ext path = false \/ PyStr.falsy (cli_components c) = true ->
  exists e, main env ext c w = (Raises e, w).
Proof.
  intros Hp Hne H.
  destruct (resolution env ext (parse_args env c)) as [tweaks|e] eqn:Hr.
  - destruct (attach_stops (parse_args env c) path tweaks w Hp Hne H)
      as [e He].
    exists e. now apply main_stops_in_attach with tweaks.
  - exists e. now apply main_stops_in_resolve.
Qed.

End Attachment.

(* ================================================================= *)
(** ** Printing and saving *)

Section Output.

Variable ext : externals.

(** [output] always returns; it prints the answer first, then saves. *)
Lemma output_run (a : args) (answer : json) (w : world) :
  let shown := if arg_raw a then Json.dumps None answer
               else Json.dumps (Some 2) answer in
  output ext a answer w
  = (Returns tt,
     match arg_save_output a with
     | None | Some EmptyString =>
         World (stdout w ++ [shown]) (network w) (files w)
     | Some path =>
         match open_w ext path with
         | None =>
             World (stdout w ++ [shown; "✅ Output saved to " ++ path])
                   (network w)
                   ((path, Json.dumps (Some 2) answer) :: files w)
         | Some msg =>
             World (stdout w ++ [shown; "❌ Failed to save output: " ++ msg])
                   (network w) (files w)
         end
     end).
Proof.
  intros shown. unfold output, bind.
  assert (P : (if arg_raw a then print (Json.dumps None answer)
               else print (Json.dumps (Some 2) answer)) w
              = (Returns tt,
                 World (stdout w ++ [shown]) (network w) (files w)))
    by (subst shown; now destruct (arg_raw a)).
  rewrite P.
  destruct (arg_save_output a) as [[|c path]|]; try reflexivity.
  unfold try_except, bind, dump_to.
  destruct (open_w ext (String c path)) as [msg|].
  - unfold dispatch, print. simpl.
    now rewrite <- app_assoc.
  - unfold print. simpl. now rewrite <- app_assoc.
Qed.

End Output.

(* ================================================================= *)
(** ** The claims about [main] *)

(** C3.  When the merged application token is absent (or empty) or is
    the placeholder, or when no flow identifier comes out of
    [--endpoint] and [FLOW_ID], [main] stops with a [ValueError] and
    the world untouched: nothing was printed, written or sent. *)
Theorem main_rejects_bad_token_or_flow_id
        (env : environ) (ext : externals) (c : cli) (w : world) :
  PyStr.falsy (arg_application_token (parse_args env c)) = true
  \/ arg_application_token (parse_args env c) = Some PLACEHOLDER
  \/ PyStr.falsy (arg_endpoint (parse_args env c)) = true ->
  exists msg,
    main env ext c w = (Raises (Raise ValueError msg), w)
    /\ (msg = token_message \/ msg = endpoint_message).
Proof.
  intros H.
  assert (B : token_ok (arg_application_token (parse_args env c)) = false
              \/ PyStr.falsy (arg_endpoint (parse_args env c)) = true).
  { unfold token_ok. destruct H as [H|[H|H]]; auto.
    - left. now rewrite H.
    - left. rewrite H. now rewrite contains_self, andb_false_r. }
  unfold main, bind. rewrite resolve_run. unfold resolution.
  destruct (token_ok _); simpl negb; cbv iota; [|eauto].
  destruct B as [B|B]; [discriminate|]. rewrite B. eauto.
Qed.

Lemma main_rejects_bad_token_or_flow_id_witness :
  arg_application_token
    (parse_args (Environ (Some "ns") (Some "flow-1") (Some PLACEHOLDER))
                Sample.hello) = Some PLACEHOLDER
  /\ exists msg,
      main (Environ (Some "ns") (Some "flow-1") (Some PLACEHOLDER))
           (Sample.machine (Post_returns Sample.ok_response))
           Sample.hello initial_world
      = (Raises (Raise ValueError msg), initial_world)
      /\ (msg = token_message \/ msg = endpoint_message).
Proof.
  split; [reflexivity|].
  apply (main_rejects_bad_token_or_flow_id
           (Environ (Some "ns") (Some "flow-1") (Some PLACEHOLDER))).
  right; left; reflexivity.
Defined.

(** C4.  When the [--tweaks] argument is not JSON, [main] stops with a
    [ValueError] and the world untouched: no POST was attempted. *)
Theorem main_rejects_malformed_tweaks
        (env : environ) (ext : externals) (c : cli) (w : world)
        (given msg : string) :
  cli_tweaks c = Some given ->
  json_loads ext given = inl msg ->
  exists reason,
    main env ext c w = (Raises (Raise ValueError reason), w)
    /\ network (snd (main env ext c w)) = network w.
Proof.
  intros Hg Hm.
  destruct (resolution_value_error env ext (parse_args env c))
    as (reason & Hr & _).
  { right; right. exists msg. simpl. now rewrite Hg. }
  exists reason.
  now rewrite (main_stops_in_resolve env ext c w _ Hr).
Qed.

Lemma main_rejects_malformed_tweaks_witness :
  json_loads (Sample.machine (Post_returns Sample.ok_response))
             Sample.bad_tweaks
  = inl "Expecting property name enclosed in double quotes: line 1 column 2 (char 1)"
  /\ exists reason,
      main Sample.full_env (Sample.machine (Post_returns Sample.ok_response))
           (Cli "Hello!" None (Some Sample.bad_tweaks) None None None None
                None None false false)
           initial_world
      = (Raises (Raise ValueError reason), initial_world)
      /\ network
           (snd (main Sample.full_env
                      (Sample.machine (Post_returns Sample.ok_response))
                      (Cli "Hello!" None (Some Sample.bad_tweaks) None None
                           None None None None false false)
                      initial_world))
         = network initial_world.
Proof.
  split; [reflexivity|].
  eapply main_rejects_malformed_tweaks; reflexivity.
Defined.

(** C10.  The placeholder check is a containment test: a token that has
    the placeholder anywhere inside, with more text before or after it,
    is not the placeholder and is rejected with the same [ValueError]. *)
Theorem placeholder_check_is_containment
        (env : environ) (ext : externals) (c : cli) (w : world)
        (before after : string) :
  cli_application_token c = Some (before ++ PLACEHOLDER ++ after) ->
  before ++ after <> "" ->
  before ++ PLACEHOLDER ++ after <> PLACEHOLDER
  /\ main env ext c w = (Raises (Raise ValueError token_message), w).
Proof.
  intros Ht Hne. split.
  - intros E. apply (f_equal String.length) in E.
    rewrite !length_append in E.
    assert (L : String.length (before ++ after) = 0).
    { rewrite length_append. lia. }
    destruct (before ++ after); [now apply Hne | discriminate].
  - apply main_stops_in_resolve. unfold resolution, token_ok.
    simpl arg_application_token. rewrite Ht.
    now rewrite contains_inside, andb_false_r.
Qed.

Lemma placeholder_check_is_containment_witness :
  "x" ++ PLACEHOLDER ++ "" <> PLACEHOLDER
  /\ main Sample.full_env (Sample.machine (Post_returns Sample.ok_response))
          (Cli "Hello!" None None (Some "x<YOUR_APPLICATION_TOKEN>") None None
               None None None false false)
          initial_world
     = (Raises (Raise ValueError token_message), initial_world).
Proof.
  apply (placeholder_check_is_containment
           Sample.full_env (Sample.machine (Post_returns Sample.ok_response))
           (Cli "Hello!" None None (Some "x<YOUR_APPLICATION_TOKEN>") None
                None None None None false false)
           initial_world "x" "").
  - reflexivity.
  - discriminate.
Defined.

(** C2, as the specification has it, fails: with the token and the flow
    identifier on the command line and no variable in the environment,
    [main] stops in [validate_env_vars]. *)
Lemma explicit_arguments_with_empty_environment :
  cli_application_token Sample.hello_explicit = Some "ABC123"
  /\ cli_endpoint Sample.hello_explicit = Some "my_chat"
  /\ main Sample.empty_env (Sample.machine (Post_returns Sample.ok_response))
          Sample.hello_explicit initial_world
     = (Raises (Raise EnvironmentError
                      (missing_message
                         ["LANGFLOW_ID"; "FLOW_ID"; "APPLICATION_TOKEN"])),
        initial_world).
Proof. repeat split. Qed.

(** C2, amended.  A token and a flow identifier given on the command
    line are the merged ones, whatever the environment holds.  With a
    real token, a flow identifier and tweaks that parse, configuration
    resolution succeeds, with the parsed tweaks and no effect, when
    [LANGFLOW_ID], [FLOW_ID] and [APPLICATION_TOKEN] are set; and it
    fails with the missing-variable error when [LANGFLOW_ID], which has
    no command-line option, is not set. *)
Theorem explicit_arguments_resolve
        (env : environ) (ext : externals) (c : cli) (w : world)
        (token endpoint : string) (tweaks : json) :
  cli_application_token c = Some token ->
  cli_endpoint c = Some endpoint ->
  token <> "" -> PyStr.contains PLACEHOLDER token = false ->
  endpoint <> "" ->
  json_loads ext (arg_tweaks (parse_args env c)) = inr tweaks ->
  arg_application_token (parse_args env c) = Some token
  /\ arg_endpoint (parse_args env c) = Some endpoint
  /\ (PyStr.falsy (LANGFLOW_ID env) = false ->
      PyStr.falsy (FLOW_ID env) = false ->
      PyStr.falsy (APPLICATION_TOKEN env) = false ->
      resolve env ext (parse_args env c) w = (Returns tweaks, w))
  /\ (PyStr.falsy (LANGFLOW_ID env) = true ->
      exists msg,
        resolve env ext (parse_args env c) w
        = (Raises (Raise EnvironmentError msg), w)).
Proof.
  intros Ht He Htne Hph Hene Hj.
  assert (At : arg_application_token (parse_args env c) = Some token)
    by (simpl; now rewrite Ht).
  assert (Ae : arg_endpoint (parse_args env c) = Some endpoint)
    by (simpl; now rewrite He).
  assert (R : resolution env ext (parse_args env c)
              = match missing_vars env with
                | [] => Returns tweaks
                | _ :: _ =>
                    Raises (Raise EnvironmentError
                                  (missing_message (missing_vars env)))
                end).
  { unfold resolution, token_ok. rewrite At, Ae, Hph, Hj.
    destruct token; [congruence|]. destruct endpoint; [congruence|].
    reflexivity. }
  repeat split; try assumption.
  - intros HL HF HA. rewrite resolve_run, R.
    now rewrite (proj2 (missing_vars_nil env) (conj HL (conj HF HA))).
  - intros HL. rewrite resolve_run, R.
    destruct (missing_vars env) eqn:E; [|eauto].
    apply missing_vars_nil in E. destruct E as [E _]. congruence.
Qed.

Lemma explicit_arguments_resolve_witness :
  arg_application_token (parse_args Sample.full_env Sample.hello_explicit)
  = Some "ABC123"
  /\ arg_endpoint (parse_args Sample.full_env Sample.hello_explicit)
     = Some "my_chat"
  /\ resolve Sample.full_env Sample.answering
             (parse_args Sample.full_env Sample.hello_explicit) initial_world
     = (Returns DEFAULT_TWEAKS, initial_world).
Proof.
  destruct (explicit_arguments_resolve
              Sample.full_env Sample.answering Sample.hello_explicit
              initial_world "ABC123" "my_chat" DEFAULT_TWEAKS)
    as (Ht & He & Hok & _);
    try solve [reflexivity | discriminate].
  split; [exact Ht|]. split; [exact He|].
  apply Hok; reflexivity.
Defined.

(** The part of C2 that the code misses: [LANGFLOW_ID] is set, and the
    two values that do have a command-line option are given there, yet
    [validate_env_vars] asks for them in the environment. *)
Example explicit_arguments_with_namespace_only :
  main (Environ (Some "ns") None None)
       (Sample.machine (Post_returns Sample.ok_response))
       Sample.hello_explicit initial_world
  = (Raises (Raise EnvironmentError
                   (missing_message ["FLOW_ID"; "APPLICATION_TOKEN"])),
     initial_world).
Proof. reflexivity. Qed.

(** C5, as the specification has it, fails: without langflow installed
    the missing file is never looked at, [main] stops with an
    [ImportError]. *)
Lemma missing_file_without_langflow :
  is_file (Sample.bare_machine (Post_returns Sample.ok_response)) "nowhere.csv"
  = false
  /\ main Sample.full_env
          (Sample.bare_machine (Post_returns Sample.ok_response))
          (Cli "Analyze" None None None None None (Some "nowhere.csv")
               (Some "ParseData-r4Fhk") None false false)
          initial_world
     = (Raises (Raise ImportError import_message), initial_world).
Proof. split; reflexivity. Qed.

(** C5, amended.  When [--upload_file] names a path that is not an
    existing regular file, [main] stops with an exception and the world
    untouched (no request was attempted); the exception is the
    [FileNotFoundError] whenever configuration resolution succeeded and
    the upload capability is there. *)
Theorem main_rejects_missing_file
        (env : environ) (ext : externals) (c : cli) (w : world)
        (path : string) :
  cli_upload_file c = Some path -> path <> "" ->
  is_file ext path = false ->
  (exists e, main env ext c w = (Raises e, w))
  /\ (forall tweaks up,
         fst (resolve env ext (parse_args env c) w) = Returns tweaks ->
         upload_file ext = Some up ->
         main env ext c w
         = (Raises (Raise FileNotFoundError (file_message path)), w)).
Proof.
  intros Hp Hne Hf. split.
  - apply main_stops_before_upload with path; auto.
  - intros tweaks up Hr Hu. rewrite resolve_run in Hr. simpl in Hr.
    apply main_stops_in_attach with tweaks; [assumption|].
    rewrite (attach_guards ext (parse_args env c) path tweaks w Hp Hne).
    now rewrite Hu, Hf.
Qed.

Lemma main_rejects_missing_file_witness :
  (exists e,
      main Sample.full_env (Sample.machine (Post_returns Sample.ok_response))
           (Cli "Analyze" None None None None None (Some "nowhere.csv")
                (Some "ParseData-r4Fhk") None false false)
           initial_world
      = (Raises e, initial_world))
  /\ main Sample.full_env (Sample.machine (Post_returns Sample.ok_response))
          (Cli "Analyze" None None None None None (Some "nowhere.csv")
               (Some "ParseData-r4Fhk") None false false)
          initial_world
     = (Raises (Raise FileNotFoundError (file_message "nowhere.csv")),
        initial_world).
Proof.
  destruct (main_rejects_missing_file
              Sample.full_env
              (Sample.machine (Post_returns Sample.ok_response))
              (Cli "Analyze" None None None None None (Some "nowhere.csv")
                   (Some "ParseData-r4Fhk") None false false)
              initial_world "nowhere.csv") as [H1 H2];
    [reflexivity | discriminate | reflexivity |].
  split; [exact H1|].
  apply (H2 DEFAULT_TWEAKS Sample.upload); reflexivity.
Defined.

(** An empty [--upload_file] is no upload at all: [main] goes on to the
    flow. *)
Example empty_upload_path_goes_on :
  network
    (snd (main Sample.full_env Sample.answering
               (Cli "Hello!" None None None None None (Some "") None None
                    false false)
               initial_world))
  = [Post "https://api.langflow.astra.datastax.com/lf/ns/api/v1/run/flow-1"
          (JObj [("input_value", JStr "Hello!");
                 ("output_type", JStr "chat");
                 ("input_type", JStr "chat");
                 ("tweaks", DEFAULT_TWEAKS)])
          [("Authorization", "Bearer ENVTOKEN");
           ("Content-Type", "application/json")]].
Proof. reflexivity. Qed.

(** C6, as the specification has it, fails: the file is looked for
    before the components, so with a missing file and no [--components]
    the exception is the [FileNotFoundError], not a configuration
    error. *)
Lemma missing_components_and_missing_file :
  cli_components
    (Cli "Analyze" None None None None None (Some "nowhere.csv") None None
         false false) = None
  /\ main Sample.full_env (Sample.machine (Post_returns Sample.ok_response))
          (Cli "Analyze" None None None None None (Some "nowhere.csv") None
               None false false)
          initial_world
     = (Raises (Raise FileNotFoundError (file_message "nowhere.csv")),
        initial_world).
Proof. split; reflexivity. Qed.

(** C6, amended.  When [--upload_file] is given and [--components] is
    omitted or empty, [main] stops with an exception and the world
    untouched (no request was attempted); the exception is the
    [ValueError] about the components whenever configuration resolution
    succeeded, the upload capability is there and the file exists. *)
Theorem main_rejects_missing_components
        (env : environ) (ext : externals) (c : cli) (w : world)
        (path : string) :
  cli_upload_file c = Some path -> path <> "" ->
  PyStr.falsy (cli_components c) = true ->
  (exists e, main env ext c w = (Raises e, w))
  /\ (forall tweaks up,
         fst (resolve env ext (parse_args env c) w) = Returns tweaks ->
         upload_file ext = Some up ->
         is_file ext path = true ->
         main env ext c w
         = (Raises (Raise ValueError components_message), w)).
Proof.
  intros Hp Hne Hc. split.
  - apply main_stops_before_upload with path; auto.
  - intros tweaks up Hr Hu Hf. rewrite resolve_run in Hr. simpl in Hr.
    apply main_stops_in_attach with tweaks; [assumption|].
    rewrite (attach_guards ext (parse_args env c) path tweaks w Hp Hne).
    rewrite Hu, Hf. simpl negb. cbv iota.
    change (arg_components (parse_args env c)) with (cli_components c).
    now rewrite Hc.
Qed.

Lemma main_rejects_missing_components_witness :
  (exists e,
      main Sample.full_env
           (Sample.machine_with_file (Post_returns Sample.ok_response))
           (Cli "Analyze" None None None None None (Some "data.csv") None
                None false false)
           initial_world
      = (Raises e, initial_world))
  /\ main Sample.full_env
          (Sample.machine_with_file (Post_returns Sample.ok_response))
          (Cli "Analyze" None None None None None (Some "data.csv") None
               None false false)
          initial_world
     = (Raises (Raise ValueError components_message), initial_world).
Proof.
  destruct (main_rejects_missing_components
              Sample.full_env
              (Sample.machine_with_file (Post_returns Sample.ok_response))
              (Cli "Analyze" None None None None None (Some "data.csv") None
                   None false false)
              initial_world "data.csv") as [H1 H2];
    [reflexivity | discriminate | reflexivity |].
  split; [exact H1|].
  apply (H2 DEFAULT_TWEAKS Sample.upload); reflexivity.
Defined.

(** C9.  Once the flow has answered, [main] returns normally; the first
    thing it prints is the answer, as compact JSON with [--raw] and as
    JSON indented by two spaces without; and with [--save_output] the
    file, once opened, holds the JSON indented by two spaces whatever
    [--raw] says, which is the text printed when [--raw] is off. *)
Theorem main_prints_and_saves
        (env : environ) (ext : externals) (c : cli) (w w2 w3 : world)
        (tweaks tweaks' answer : json) :
  fst (resolve env ext (parse_args env c) w) = Returns tweaks ->
  attach ext (parse_args env c) tweaks w = (Returns tweaks', w2) ->
  run_flow env ext (cli_message c)
           (PyStr.format (arg_endpoint (parse_args env c)))
           (arg_output_type (parse_args env c))
           (arg_input_type (parse_args env c))
           tweaks' (arg_application_token (parse_args env c))
           (cli_verbose c) w2
  = (Returns answer, w3) ->
  fst (main env ext c w) = Returns tt
  /\ (exists notices,
         stdout (snd (main env ext c w))
         = (stdout w
              ++ [if cli_raw c then Json.dumps None answer
                  else Json.dumps (Some 2) answer]
              ++ notices)%list)
  /\ (forall path,
         cli_save_output c = Some path -> path <> "" ->
         open_w ext path = None ->
         read_file path (files (snd (main env ext c w)))
         = Some (Json.dumps (Some 2) answer)).
Proof.
  intros Hr Ha Hf. rewrite resolve_run in Hr. simpl in Hr.
  assert (Hm : main env ext c w = output ext (parse_args env c) answer w3).
  { unfold main, bind. rewrite resolve_run, Hr, Ha.
    change (arg_message (parse_args env c)) with (cli_message c).
    change (arg_verbose (parse_args env c)) with (cli_verbose c).
    now rewrite Hf. }
  assert (Hs : stdout w3 = stdout w).
  { apply (f_equal snd) in Hf. rewrite run_flow_world in Hf.
    simpl in Hf. subst w3. simpl.
    destruct (attach_quiet ext (parse_args env c) tweaks w) as [Q _].
    now rewrite Ha in Q. }
  rewrite Hm, output_run. cbv zeta.
  change (arg_raw (parse_args env c)) with (cli_raw c).
  change (arg_save_output (parse_args env c)) with (cli_save_output c).
  rewrite Hs. split; [reflexivity|]. split.
  - simpl snd.
    destruct (cli_save_output c) as [[|ch path]|]; simpl stdout;
      try (now exists []).
    destruct (open_w ext (String ch path)); simpl stdout;
      eexists; reflexivity.
  - intros path Hp Hne Ho. rewrite Hp.
    destruct path as [|ch path]; [congruence|].
    rewrite Ho. cbn [snd files read_file]. now rewrite String.eqb_refl.
Qed.

Lemma main_prints_and_saves_witness :
  fst (main Sample.full_env Sample.answering Sample.hello_raw_saved
            initial_world) = Returns tt
  /\ (exists notices,
         stdout (snd (main Sample.full_env Sample.answering
                           Sample.hello_raw_saved initial_world))
         = ([] ++ [Json.dumps None (JObj [("result", JStr "ok")])]
               ++ notices)%list)
  /\ (forall path,
         cli_save_output Sample.hello_raw_saved = Some path -> path <> "" ->
         open_w Sample.answering path = None ->
         read_file path
           (files (snd (main Sample.full_env Sample.answering
                             Sample.hello_raw_saved initial_world)))
         = Some (Json.dumps (Some 2) (JObj [("result", JStr "ok")]))).
Proof.
  apply (main_prints_and_saves
           Sample.full_env Sample.answering Sample.hello_raw_saved
           initial_world initial_world
           (World []
                  [Post "https://api.langflow.astra.datastax.com/lf/ns/api/v1/run/flow-1"
                        (JObj [("input_value", JStr "Hello!");
                               ("output_type", JStr "chat");
                               ("input_type", JStr "chat");
                               ("tweaks", DEFAULT_TWEAKS)])
                        [("Authorization", "Bearer ENVTOKEN");
                         ("Content-Type", "application/json")]]
                  [])
           DEFAULT_TWEAKS DEFAULT_TWEAKS (JObj [("result", JStr "ok")]));
    reflexivity.
Defined.

(** The two printed forms and the saved file of the specification's
    example, and the HTTP 500 as it is printed with [--raw]. *)
Example raw_and_saved :
  snd (main Sample.full_env (Sample.machine (Post_returns Sample.ok_response))
            (Cli "Hello!" None None None None None None None
                 (Some "out.json") false true)
            initial_world)
  = World [ "{" ++ PyStr.dquote ++ "result" ++ PyStr.dquote ++ ": "
                ++ PyStr.dquote ++ "ok" ++ PyStr.dquote ++ "}";
            "✅ Output saved to out.json" ]
          [Post "https://api.langflow.astra.datastax.com/lf/ns/api/v1/run/flow-1"
                (JObj [("input_value", JStr "Hello!");
                       ("output_type", JStr "chat");
                       ("input_type", JStr "chat");
                       ("tweaks", DEFAULT_TWEAKS)])
                [("Authorization", "Bearer ENVTOKEN");
                 ("Content-Type", "application/json")]]
          [ ("out.json",
             "{" ++ PyStr.newline ++ "  " ++ PyStr.dquote ++ "result"
                 ++ PyStr.dquote ++ ": " ++ PyStr.dquote ++ "ok"
                 ++ PyStr.dquote ++ PyStr.newline ++ "}") ].
Proof. reflexivity. Qed.

Example http_500_printed :
  stdout
    (snd (main Sample.full_env
               (Sample.machine (Post_returns Sample.error_response))
               (Cli "Hello!" None None None None None None None None
                    false true)
               initial_world))
  = [ "{" ++ PyStr.dquote ++ "error" ++ PyStr.dquote ++ ": "
          ++ PyStr.dquote ++ "HTTP 500: server error" ++ PyStr.dquote ++ "}" ].
Proof. reflexivity. Qed.

(* ================================================================= *)
(** ** More on the stages: what [main] does as a whole *)

Section Stages.

Variable env : environ.
Variable ext : externals.

(** [run_flow] returns, whatever [requests] does. *)
Lemma run_flow_returns (message endpoint output_type input_type : string)
      (tweaks : json) (application_token : option string) (verbose : bool)
      (w : world) :
  exists answer,
    run_flow env ext message endpoint output_type input_type tweaks
             application_token verbose w
    = (Returns answer,
       World (stdout w)
             (network w
                ++ [Post (api_url_of env endpoint)
                         (payload_of message output_type input_type tweaks)
                         (headers_of application_token)])
             (files w)).
Proof.
  rewrite (surjective_pairing (run_flow _ _ _ _ _ _ _ _ _ _)).
  rewrite run_flow_world.
  unfold run_flow, bind, try_let, post. cbv zeta. rewrite verbose_silent.
  destruct (requests_post ext _ _ _) as [msg|r]; [eexists; reflexivity|].
  destruct (is_error_status r) eqn:Es.
  - rewrite raise_for_status_error by assumption. eexists; reflexivity.
  - rewrite raise_for_status_fine by assumption.
    unfold response_json. destruct (json_body r); eexists; reflexivity.
Qed.



(** Past [attach], [main] is the flow followed by [output]. *)
Lemma main_after_attach (c : cli) (w w2 : world) (tweaks tweaks' : json) :
  resolution env ext (parse_args env c) = Returns tweaks ->
  attach ext (parse_args env c) tweaks w = (Returns tweaks', w2) ->
  exists answer,
    main env ext c w
    = output ext (parse_args env c) answer
             (World (stdout w2)
                    (network w2
                       ++ [Post (api_url_of env
                                   (PyStr.format
                                      (arg_endpoint (parse_args env c))))
                                (payload_of (cli_message c)
                                   (arg_output_type (parse_args env c))
                                   (arg_input_type (parse_args env c))
                                   tweaks')
                                (headers_of
                                   (arg_application_token
                                      (parse_args env c)))])
                    (files w2)).
Proof.
  intros Hr Ha.
  destruct (run_flow_returns
              (cli_message c)
              (PyStr.format (arg_endpoint (parse_args env c)))
              (arg_output_type (parse_args env c))
              (arg_input_type (parse_args env c))
              tweaks' (arg_application_token (parse_args env c))
              (cli_verbose c) w2) as [answer Hf].
  exists answer. unfold main, bind. rewrite resolve_run, Hr, Ha.
  change (arg_message (parse_args env c)) with (cli_message c).
  change (arg_verbose (parse_args env c)) with (cli_verbose c).
  now rewrite Hf.
Qed.

(** When [resolve] returns, every check has passed. *)
Lemma resolution_returns (a : args) (tweaks : json) :
  resolution env ext a = Returns tweaks ->
  token_ok (arg_application_token a) = true
  /\ PyStr.falsy (arg_endpoint a) = false
  /\ json_loads ext (arg_tweaks a) = inr tweaks
  /\ missing_vars env = [].
Proof.
  unfold resolution.
  destruct (token_ok _); [|discriminate]. simpl negb. cbv iota.
  destruct (PyStr.falsy _); [discriminate|].
  destruct (json_loads ext _) as [msg|t]; [discriminate|].
  destruct (missing_vars env); [|discriminate].
  intros H; injection H as ->. auto.
Qed.

End Stages.

(* ================================================================= *)
(** ** Containment, the other way round *)





(* ================================================================= *)
(** ** Further properties of the program *)

(** X1.  [validate_env_vars] changes nothing; it returns exactly when
    [LANGFLOW_ID], [FLOW_ID] and [APPLICATION_TOKEN] are all set and not
    empty; otherwise it raises an [EnvironmentError] whose message
    lists, of the three names, exactly those that are unset or empty. *)
Theorem validate_env_vars_spec (env : environ) (w : world) :
  snd (validate_env_vars env w) = w
  /\ (fst (validate_env_vars env w) = Returns tt <->
      PyStr.falsy (LANGFLOW_ID env) = false
      /\ PyStr.falsy (FLOW_ID env) = false
      /\ PyStr.falsy (APPLICATION_TOKEN env) = false)
  /\ (forall e,
         fst (validate_env_vars env w) = Raises e ->
         exists names,
           e = Raise EnvironmentError
                     ("Missing required environment variable(s): "
                        ++ PyStr.join ", " names
                        ++ ". Set them in your .env file or via command-line arguments.")
           /\ (In "LANGFLOW_ID" names <-> PyStr.falsy (LANGFLOW_ID env) = true)
           /\ (In "FLOW_ID" names <-> PyStr.falsy (FLOW_ID env) = true)
           /\ (In "APPLICATION_TOKEN" names <->
               PyStr.falsy (APPLICATION_TOKEN env) = true)).
Proof.
  rewrite validate_env_vars_run. simpl fst. simpl snd.
  split; [reflexivity|]. split.
  - rewrite <- missing_vars_nil.
    destruct (missing_vars env); split; congruence.
  - intros e H. exists (missing_vars env). split.
    + destruct (missing_vars env); [discriminate|]. now injection H as <-.
    + clear H. unfold missing_vars.
      destruct (PyStr.falsy (LANGFLOW_ID env)), (PyStr.falsy (FLOW_ID env)),
        (PyStr.falsy (APPLICATION_TOKEN env)); simpl;
        repeat split; intros H; auto;
        repeat (destruct H as [H|H]; try discriminate); try discriminate;
        contradiction.
Qed.

(** X2.  [main] sends nothing over the network unless the whole
    configuration is in place: if the network log has changed, the
    three environment variables are set, the merged token is not empty
    and free of the placeholder, there is a flow identifier and the
    tweaks parsed. *)
Theorem main_requests_need_configuration
        (env : environ) (ext : externals) (c : cli) (w : world) :
  network (snd (main env ext c w)) <> network w ->
  PyStr.falsy (LANGFLOW_ID env) = false
  /\ PyStr.falsy (FLOW_ID env) = false
  /\ PyStr.falsy (APPLICATION_TOKEN env) = false
  /\ (exists token,
         arg_application_token (parse_args env c) = Some token
         /\ token <> "" /\ PyStr.contains PLACEHOLDER token = false)
  /\ PyStr.falsy (arg_endpoint (parse_args env c)) = false
  /\ (exists tweaks,
         json_loads ext (arg_tweaks (parse_args env c)) = inr tweaks).
Proof.
  intros H.
  destruct (resolution env ext (parse_args env c)) as [tweaks|e] eqn:Hr.
  - apply resolution_returns in Hr. destruct Hr as (Ht & He & Hj & Hm).
    apply missing_vars_nil in Hm. destruct Hm as (HL & HF & HA).
    repeat split; try assumption; [|eauto].
    unfold token_ok in Ht.
    destruct (arg_application_token (parse_args env c)) as [[|ch t]|];
      try discriminate.
    exists (String ch t). repeat split; [discriminate|].
    simpl in Ht. now apply negb_true_iff in Ht.
  - rewrite (main_stops_in_resolve env ext c w e Hr) in H. now destruct H.
Qed.

Lemma main_requests_need_configuration_witness :
  PyStr.falsy (LANGFLOW_ID Sample.full_env) = false
  /\ PyStr.falsy (FLOW_ID Sample.full_env) = false
  /\ PyStr.falsy (APPLICATION_TOKEN Sample.full_env) = false
  /\ (exists token,
         arg_application_token (parse_args Sample.full_env Sample.hello)
         = Some token
         /\ token <> "" /\ PyStr.contains PLACEHOLDER token = false)
  /\ PyStr.falsy (arg_endpoint (parse_args Sample.full_env Sample.hello))
     = false
  /\ (exists tweaks,
         json_loads Sample.answering
                    (arg_tweaks (parse_args Sample.full_env Sample.hello))
         = inr tweaks).
Proof.
  apply (main_requests_need_configuration
           Sample.full_env Sample.answering Sample.hello initial_world).
  discriminate.
Defined.




Section Whole.

Variable env : environ.
Variable ext : externals.

(** [output] leaves the network log alone. *)
Lemma output_network (a : args) (answer : json) (w : world) :
  network (snd (output ext a answer w)) = network w.
Proof.
  rewrite output_run. simpl snd.
  destruct (arg_save_output a) as [[|ch path]|]; try reflexivity.
  now destruct (open_w ext (String ch path)).
Qed.

(** The two ways [main] ends: with the exception of [resolve] or of
    [attach], nothing printed and nothing written; or through the flow
    and [output]. *)
Lemma main_cases (c : cli) (w : world) :
  (exists e w1,
      main env ext c w = (Raises e, w1)
      /\ stdout w1 = stdout w /\ files w1 = files w)
  \/ (exists tweaks tweaks' w2 answer,
         resolution env ext (parse_args env c) = Returns tweaks
         /\ attach ext (parse_args env c) tweaks w = (Returns tweaks', w2)
         /\ stdout w2 = stdout w /\ files w2 = files w
         /\ main env ext c w
            = output ext (parse_args env c) answer
                     (World (stdout w2)
                            (network w2
                               ++ [Post (api_url_of env
                                           (PyStr.format
                                              (arg_endpoint
                                                 (parse_args env c))))
                                        (payload_of (cli_message c)
                                           (arg_output_type (parse_args env c))
                                           (arg_input_type (parse_args env c))
                                           tweaks')
                                        (headers_of
                                           (arg_application_token
                                              (parse_args env c)))])
                            (files w2))).
Proof.
  destruct (resolution env ext (parse_args env c)) as [tweaks|e] eqn:Hr.
  - destruct (attach_quiet ext (parse_args env c) tweaks w) as [Qs Qf].
    destruct (attach ext (parse_args env c) tweaks w) as [[tweaks'|e] w2]
      eqn:Ha; simpl in Qs, Qf.
    + right.
      destruct (main_after_attach env ext c w w2 tweaks tweaks' Hr Ha)
        as [answer Hm].
      exists tweaks, tweaks', w2, answer. auto.
    + left. exists e, w2.
      now rewrite (main_stops_in_attach env ext c w w2 tweaks e Hr Ha).
  - left. exists e, w.
    now rewrite (main_stops_in_resolve env ext c w e Hr).
Qed.

End Whole.

(** X5.  Without an upload, [main] sends exactly one POST, and the
    values given on the command line are the ones it sends: the URL ends
    in the [--endpoint] value and the [Authorization] header carries the
    [--application_token] value, whatever [FLOW_ID] and
    [APPLICATION_TOKEN] hold. *)
Theorem main_sends_command_line_values
        (env : environ) (ext : externals) (c : cli) (w : world)
        (endpoint token : string) (tweaks : json) :
  cli_endpoint c = Some endpoint ->
  cli_application_token c = Some token ->
  PyStr.falsy (cli_upload_file c) = true ->
  fst (resolve env ext (parse_args env c) w) = Returns tweaks ->
  network (snd (main env ext c w))
  = (network w
       ++ [Post (BASE_API_URL ++ "/lf/" ++ PyStr.format (LANGFLOW_ID env)
                   ++ "/api/v1/run/" ++ endpoint)
                (payload_of (cli_message c)
                            (arg_output_type (parse_args env c))
                            (arg_input_type (parse_args env c)) tweaks)
                [ ("Authorization", ("Bearer " ++ token)%string);
                  ("Content-Type", "application/json") ]])%list.
Proof.
  intros He Ht Hu Hr. rewrite resolve_run in Hr. simpl in Hr.
  destruct (main_after_attach env ext c w w tweaks tweaks Hr
              (attach_nothing ext (parse_args env c) tweaks w Hu))
    as [answer Hm].
  rewrite Hm, output_network. simpl network.
  unfold api_url_of, headers_of. simpl arg_endpoint.
  simpl arg_application_token. now rewrite He, Ht.
Qed.

Lemma main_sends_command_line_values_witness :
  network (snd (main Sample.full_env Sample.answering Sample.hello_explicit
                     initial_world))
  = (network initial_world
       ++ [Post (BASE_API_URL ++ "/lf/"
                   ++ PyStr.format (LANGFLOW_ID Sample.full_env)
                   ++ "/api/v1/run/" ++ "my_chat")
                (payload_of (cli_message Sample.hello_explicit)
                            (arg_output_type
                               (parse_args Sample.full_env
                                           Sample.hello_explicit))
                            (arg_input_type
                               (parse_args Sample.full_env
                                           Sample.hello_explicit))
                            DEFAULT_TWEAKS)
                [ ("Authorization", ("Bearer " ++ "ABC123")%string);
                  ("Content-Type", "application/json") ]])%list.
Proof.
  apply (main_sends_command_line_values
           Sample.full_env Sample.answering Sample.hello_explicit
           initial_world "my_chat" "ABC123" DEFAULT_TWEAKS);
    reflexivity.
Defined.

(** X6.  With nothing but the message on the command line, the request
    is built from the environment and the defaults: the URL ends in
    [FLOW_ID], the header carries [APPLICATION_TOKEN], and the output
    and input types are both [chat]. *)
Theorem main_sends_defaults
        (env : environ) (ext : externals) (c : cli) (w : world)
        (tweaks : json) :
  cli_endpoint c = None ->
  cli_application_token c = None ->
  cli_output_type c = None ->
  cli_input_type c = None ->
  PyStr.falsy (cli_upload_file c) = true ->
  fst (resolve env ext (parse_args env c) w) = Returns tweaks ->
  exists flow_id token,
    FLOW_ID env = Some flow_id
    /\ APPLICATION_TOKEN env = Some token
    /\ network (snd (main env ext c w))
       = (network w
            ++ [Post (BASE_API_URL ++ "/lf/"
                        ++ PyStr.format (LANGFLOW_ID env)
                        ++ "/api/v1/run/" ++ flow_id)
                     (payload_of (cli_message c) "chat" "chat" tweaks)
                     [ ("Authorization", ("Bearer " ++ token)%string);
                       ("Content-Type", "application/json") ]])%list.
Proof.
  intros He Ht Ho Hi Hu Hr. rewrite resolve_run in Hr. simpl in Hr.
  destruct (main_after_attach env ext c w w tweaks tweaks Hr
              (attach_nothing ext (parse_args env c) tweaks w Hu))
    as [answer Hm].
  apply resolution_returns in Hr. destruct Hr as (Tok & End & _ & _).
  simpl arg_application_token in Tok. simpl arg_endpoint in End.
  rewrite Ht in Tok. rewrite He in End.
  destruct (FLOW_ID env) as [flow_id|] eqn:EF; [|discriminate].
  destruct (APPLICATION_TOKEN env) as [token|] eqn:EA; [|discriminate].
  exists flow_id, token. repeat split.
  rewrite Hm, output_network. simpl network.
  unfold api_url_of, headers_of. simpl arg_endpoint.
  simpl arg_application_token. simpl arg_output_type. simpl arg_input_type.
  now rewrite He, Ht, Ho, Hi, EF, EA.
Qed.

Lemma main_sends_defaults_witness :
  exists flow_id token,
    FLOW_ID Sample.full_env = Some flow_id
    /\ APPLICATION_TOKEN Sample.full_env = Some token
    /\ network (snd (main Sample.full_env Sample.answering Sample.hello
                          initial_world))
       = (network initial_world
            ++ [Post (BASE_API_URL ++ "/lf/"
                        ++ PyStr.format (LANGFLOW_ID Sample.full_env)
                        ++ "/api/v1/run/" ++ flow_id)
                     (payload_of (cli_message Sample.hello) "chat" "chat"
                                 DEFAULT_TWEAKS)
                     [ ("Authorization", ("Bearer " ++ token)%string);
                       ("Content-Type", "application/json") ]])%list.
Proof.
  apply (main_sends_defaults
           Sample.full_env Sample.answering Sample.hello initial_world
           DEFAULT_TWEAKS); reflexivity.
Defined.

(** X7.  With a file to upload that exists and components given, [main]
    first calls the upload, with the path, the API host, the flow
    identifier, the components split at the commas and stripped, and
    the parsed tweaks; then it sends the one POST, whose body carries
    the tweaks the upload returned. *)
Theorem main_uploads_then_posts
        (env : environ) (ext : externals) (c : cli) (w : world)
        (path components : string)
        (up : string -> string -> string -> list string -> json
              -> string + json)
        (tweaks tweaks' : json) :
  cli_upload_file c = Some path -> path <> "" ->
  cli_components c = Some components -> components <> "" ->
  upload_file ext = Some up ->
  is_file ext path = true ->
  fst (resolve env ext (parse_args env c) w) = Returns tweaks ->
  up (path_str ext path) BASE_API_URL
     (PyStr.format (arg_endpoint (parse_args env c)))
     (map PyStr.strip (PyStr.split_comma components)) tweaks
  = inr tweaks' ->
  network (snd (main env ext c w))
  = (network w
       ++ [ Upload (path_str ext path) BASE_API_URL
                   (PyStr.format (arg_endpoint (parse_args env c)))
                   (map PyStr.strip (PyStr.split_comma components)) tweaks;
            Post (api_url_of env
                    (PyStr.format (arg_endpoint (parse_args env c))))
                 (payload_of (cli_message c)
                             (arg_output_type (parse_args env c))
                             (arg_input_type (parse_args env c)) tweaks')
                 (headers_of (arg_application_token (parse_args env c))) ])%list.
Proof.
  intros Hp Hne Hc Hcne Hu Hf Hr Hup. rewrite resolve_run in Hr. simpl in Hr.
  assert (Ha : attach ext (parse_args env c) tweaks w
               = (Returns tweaks',
                  World (stdout w)
                        (network w
                           ++ [Upload (path_str ext path) BASE_API_URL
                                      (PyStr.format
                                         (arg_endpoint (parse_args env c)))
                                      (map PyStr.strip
                                           (PyStr.split_comma components))
                                      tweaks])
                        (files w))).
  { rewrite (attach_guards ext (parse_args env c) path tweaks w Hp Hne).
    rewrite Hu, Hf. cbn [negb].
    change (arg_components (parse_args env c)) with (cli_components c).
    rewrite Hc. destruct components as [|ch comps]; [congruence|].
    cbn [PyStr.falsy PyStr.format]. unfold call_upload. now rewrite Hup. }
  destruct (main_after_attach env ext c w _ tweaks tweaks' Hr Ha)
    as [answer Hm].
  rewrite Hm, output_network. simpl network. now rewrite <- app_assoc.
Qed.

Lemma main_uploads_then_posts_witness :
  network
    (snd (main Sample.full_env
               (Sample.machine_with_file (Post_returns Sample.ok_response))
               (Cli "Analyze" None None None None None (Some "data.csv")
                    (Some "ParseData-r4Fhk, ChatInput-D9hjW") None false false)
               initial_world))
  = [ Upload "data.csv" BASE_API_URL "flow-1"
             ["ParseData-r4Fhk"; "ChatInput-D9hjW"] DEFAULT_TWEAKS;
      Post "https://api.langflow.astra.datastax.com/lf/ns/api/v1/run/flow-1"
           (JObj [("input_value", JStr "Analyze");
                  ("output_type", JStr "chat");
                  ("input_type", JStr "chat");
                  ("tweaks",
                   JObj [("ParseData-r4Fhk", JObj [("path", JStr "data.csv")]);
                         ("ChatInput-D9hjW", JObj [("path", JStr "data.csv")])])])
           [("Authorization", "Bearer ENVTOKEN");
            ("Content-Type", "application/json")] ].
Proof.
  apply (main_uploads_then_posts
           Sample.full_env
           (Sample.machine_with_file (Post_returns Sample.ok_response))
           (Cli "Analyze" None None None None None (Some "data.csv")
                (Some "ParseData-r4Fhk, ChatInput-D9hjW") None false false)
           initial_world "data.csv" "ParseData-r4Fhk, ChatInput-D9hjW"
           Sample.upload DEFAULT_TWEAKS
           (JObj [("ParseData-r4Fhk", JObj [("path", JStr "data.csv")]);
                  ("ChatInput-D9hjW", JObj [("path", JStr "data.csv")])]));
    solve [reflexivity | discriminate].
Defined.

(** X8.  When the upload itself fails, [main] raises with the message
    of the upload, and the flow is never invoked: the upload is the
    only thing ever sent. *)
Theorem main_stops_on_failed_upload
        (env : environ) (ext : externals) (c : cli) (w : world)
        (path components msg : string)
        (up : string -> string -> string -> list string -> json
              -> string + json)
        (tweaks : json) :
  cli_upload_file c = Some path -> path <> "" ->
  cli_components c = Some components -> components <> "" ->
  upload_file ext = Some up ->
  is_file ext path = true ->
  fst (resolve env ext (parse_args env c) w) = Returns tweaks ->
  up (path_str ext path) BASE_API_URL
     (PyStr.format (arg_endpoint (parse_args env c)))
     (map PyStr.strip (PyStr.split_comma components)) tweaks
  = inl msg ->
  (exists e, fst (main env ext c w) = Raises e /\ exn_str e = msg)
  /\ network (snd (main env ext c w))
     = (network w
          ++ [ Upload (path_str ext path) BASE_API_URL
                      (PyStr.format (arg_endpoint (parse_args env c)))
                      (map PyStr.strip (PyStr.split_comma components))
                      tweaks ])%list.
Proof.
  intros Hp Hne Hc Hcne Hu Hf Hr Hup. rewrite resolve_run in Hr. simpl in Hr.
  assert (Ha : attach ext (parse_args env c) tweaks w
               = (Raises (Raise Exception msg),
                  World (stdout w)
                        (network w
                           ++ [Upload (path_str ext path) BASE_API_URL
                                      (PyStr.format
                                         (arg_endpoint (parse_args env c)))
                                      (map PyStr.strip
                                           (PyStr.split_comma components))
                                      tweaks])
                        (files w))).
  { rewrite (attach_guards ext (parse_args env c) path tweaks w Hp Hne).
    rewrite Hu, Hf. cbn [negb].
    change (arg_components (parse_args env c)) with (cli_components c).
    rewrite Hc. destruct components as [|ch comps]; [congruence|].
    cbn [PyStr.falsy PyStr.format]. unfold call_upload. now rewrite Hup. }
  rewrite (main_stops_in_attach env ext c w _ tweaks _ Hr Ha).
  split; [eexists; split; reflexivity | reflexivity].
Qed.

Lemma main_stops_on_failed_upload_witness :
  (exists e,
      fst (main Sample.full_env
                (Externals Sample.loads
                           (Some (fun _ _ _ _ _ => inl "upload refused"))
                           (fun _ => true) (fun p => p)
                           (fun _ _ _ => Post_returns Sample.ok_response)
                           (fun _ => None))
                (Cli "Analyze" None None None None None (Some "data.csv")
                     (Some "ParseData-r4Fhk") None false false)
                initial_world) = Raises e
      /\ exn_str e = "upload refused")
  /\ network
       (snd (main Sample.full_env
                  (Externals Sample.loads
                             (Some (fun _ _ _ _ _ => inl "upload refused"))
                             (fun _ => true) (fun p => p)
                             (fun _ _ _ => Post_returns Sample.ok_response)
                             (fun _ => None))
                  (Cli "Analyze" None None None None None (Some "data.csv")
                       (Some "ParseData-r4Fhk") None false false)
                  initial_world))
     = [ Upload "data.csv" BASE_API_URL "flow-1" ["ParseData-r4Fhk"]
                DEFAULT_TWEAKS ].
Proof.
  apply (main_stops_on_failed_upload
           Sample.full_env
           (Externals Sample.loads
                      (Some (fun _ _ _ _ _ => inl "upload refused"))
                      (fun _ => true) (fun p => p)
                      (fun _ _ _ => Post_returns Sample.ok_response)
                      (fun _ => None))
           (Cli "Analyze" None None None None None (Some "data.csv")
                (Some "ParseData-r4Fhk") None false false)
           initial_world "data.csv" "ParseData-r4Fhk" "upload refused"
           (fun _ _ _ _ _ => inl "upload refused") DEFAULT_TWEAKS);
    solve [reflexivity | discriminate].
Defined.



(** X10.  A save that fails is reported and nothing more: when [main]
    returns and [open] raised an [IOError] on the [--save_output] path,
    no file has been written and the last two things printed are the
    answer and the notice of failure with the message of the error. *)
Theorem main_reports_failed_save
        (env : environ) (ext : externals) (c : cli) (w : world)
        (path msg : string) :
  fst (main env ext c w) = Returns tt ->
  cli_save_output c = Some path -> path <> "" ->
  open_w ext path = Some msg ->
  files (snd (main env ext c w)) = files w
  /\ exists answer,
      stdout (snd (main env ext c w))
      = (stdout w
           ++ [ if cli_raw c then Json.dumps None answer
                else Json.dumps (Some 2) answer;
                ("❌ Failed to save output: " ++ msg)%string ])%list.
Proof.
  intros Hret Hp Hne Ho.
  destruct (main_cases env ext c w)
    as [(e & w1 & Hm & _)
       |(tweaks & tweaks' & w2 & answer & _ & _ & Hs & Hf & Hm)];
    rewrite Hm in *; [discriminate|].
  rewrite output_run. cbv zeta.
  change (arg_save_output (parse_args env c)) with (cli_save_output c).
  change (arg_raw (parse_args env c)) with (cli_raw c).
  rewrite Hp. destruct path as [|ch path]; [congruence|].
  rewrite Ho. simpl snd. simpl files. simpl stdout.
  split; [assumption|]. exists answer. now rewrite Hs.
Qed.

Lemma main_reports_failed_save_witness :
  files
    (snd (main Sample.full_env
               (Externals Sample.loads None (fun _ => false) (fun p => p)
                          (fun _ _ _ => Post_returns Sample.ok_response)
                          (fun _ => Some "[Errno 13] Permission denied: 'out.json'"))
               Sample.hello_raw_saved initial_world))
  = files initial_world
  /\ exists answer,
      stdout
        (snd (main Sample.full_env
                   (Externals Sample.loads None (fun _ => false) (fun p => p)
                              (fun _ _ _ => Post_returns Sample.ok_response)
                              (fun _ => Some "[Errno 13] Permission denied: 'out.json'"))
                   Sample.hello_raw_saved initial_world))
      = (stdout initial_world
           ++ [ if cli_raw Sample.hello_raw_saved
                then Json.dumps None answer
                else Json.dumps (Some 2) answer;
                ("❌ Failed to save output: "
                   ++ "[Errno 13] Permission denied: 'out.json'")%string ])%list.
Proof.
  apply (main_reports_failed_save
           Sample.full_env
           (Externals Sample.loads None (fun _ => false) (fun p => p)
                      (fun _ _ _ => Post_returns Sample.ok_response)
                      (fun _ => Some "[Errno 13] Permission denied: 'out.json'"))
           Sample.hello_raw_saved initial_world "out.json"
           "[Errno 13] Permission denied: 'out.json'");
    solve [reflexivity | discriminate].
Defined.

(** X11.  [main] writes at most one file, and only the one asked for:
    the files are as they were, or the [--save_output] path, not empty
    and opened without error, has been added with an answer indented by
    two spaces. *)
Theorem main_writes_only_the_output_file
        (env : environ) (ext : externals) (c : cli) (w : world) :
  files (snd (main env ext c w)) = files w
  \/ exists path answer,
      cli_save_output c = Some path /\ path <> ""
      /\ open_w ext path = None
      /\ files (snd (main env ext c w))
         = (path, Json.dumps (Some 2) answer) :: files w.
Proof.
  destruct (main_cases env ext c w)
    as [(e & w1 & Hm & _ & Hf)
       |(tweaks & tweaks' & w2 & answer & _ & _ & Hs & Hf & Hm)];
    rewrite Hm; [now left|].
  rewrite output_run. cbv zeta. simpl snd.
  change (arg_save_output (parse_args env c)) with (cli_save_output c).
  destruct (cli_save_output c) as [[|ch path]|]; simpl files; auto.
  destruct (open_w ext (String ch path)) eqn:Ho; simpl files; auto.
  right. exists (String ch path), answer.
  repeat split; [discriminate | assumption | now rewrite Hf].
Qed.

(** X12.  With [--raw] the answer is printed on a single line: the
    first thing [output] prints has no line feed in it (the floats of
    the answer being printed as Python prints them, on one line). *)
Theorem raw_output_is_one_line
        (ext : externals) (a : args) (answer : json) (w : world) :
  arg_raw a = true ->
  Json.plain_floats answer = true ->
  exists line rest,
    stdout (snd (output ext a answer w)) = (stdout w ++ line :: rest)%list
    /\ line = Json.dumps None answer
    /\ Json.one_line line = true.
Proof.
  intros Hraw Hplain. rewrite output_run. cbv zeta. rewrite Hraw. simpl snd.
  exists (Json.dumps None answer).
  destruct (arg_save_output a) as [[|ch path]|];
    try (exists []; repeat split; now apply compact_one_line).
  destruct (open_w ext (String ch path)); eexists; simpl stdout;
    (split; [reflexivity|]); split; try reflexivity;
    now apply compact_one_line.
Qed.

Lemma raw_output_is_one_line_witness :
  exists line rest,
    stdout (snd (output Sample.answering
                        (parse_args Sample.full_env Sample.hello_raw_saved)
                        (JObj [("result", JArr [JStr "ok"; JFloat "1.5"])])
                        initial_world))
    = (stdout initial_world ++ line :: rest)%list
    /\ line = Json.dumps None (JObj [("result", JArr [JStr "ok"; JFloat "1.5"])])
    /\ Json.one_line line = true.
Proof.
  apply (raw_output_is_one_line
           Sample.answering
           (parse_args Sample.full_env Sample.hello_raw_saved)
           (JObj [("result", JArr [JStr "ok"; JFloat "1.5"])])
           initial_world); reflexivity.
Defined.

(* ================================================================= *)
(** ** The component list *)

Lemma split_comma_cons (s : string) :
  exists piece pieces, PyStr.split_comma s = piece :: pieces.
Proof.
  destruct s as [|c s]; simpl; [eauto|].
  destruct (Ascii.eqb c ","%char); [eauto|].
  destruct (PyStr.split_comma s); eauto.
Qed.

Lemma join_cons (sep p : string) (parts : list string) :
  parts <> [] ->
  PyStr.join sep (p :: parts) = p ++ sep ++ PyStr.join sep parts.
Proof. destruct parts; [congruence | reflexivity]. Qed.

Lemma lstrip_spec (s : string) :
  exists before,
    s = before ++ PyStr.lstrip s
    /\ PyStr.blank before = true
    /\ PyStr.starts_blank (PyStr.lstrip s) = false.
Proof.
  induction s as [|c s (before & E & B & S)].
  - now exists "".
  - simpl PyStr.lstrip. destruct (PyStr.isspace c) eqn:Hc.
    + exists (String c before). simpl. rewrite Hc, B. repeat split; auto.
      now rewrite <- E.
    + exists "". simpl. now rewrite Hc.
Qed.

Lemma rstrip_spec (s : string) :
  exists after,
    s = PyStr.rstrip s ++ after
    /\ PyStr.blank after = true
    /\ PyStr.ends_blank (PyStr.rstrip s) = false.
Proof.
  induction s as [|c s (after & E & B & S)].
  - now exists "".
  - simpl PyStr.rstrip. destruct (PyStr.rstrip s) as [|d r] eqn:R.
    + destruct (PyStr.isspace c) eqn:Hc.
      * exists (String c after). simpl. rewrite Hc, B.
        repeat split. now rewrite E.
      * exists after. simpl. rewrite Hc. repeat split; auto.
        now rewrite E.
    + exists after. repeat split; auto. now rewrite E.
Qed.

Lemma rstrip_keeps_start (s : string) :
  PyStr.starts_blank s = false ->
  PyStr.starts_blank (PyStr.rstrip s) = false.
Proof.
  destruct s as [|c s]; [reflexivity|]. simpl. intros Hc.
  destruct (PyStr.rstrip s); [|exact Hc]. now rewrite Hc.
Qed.

(** X13.  The component list has one entry more than the text has
    commas, empty entries included; the pieces hold no comma, and
    joined by commas they give the text back. *)
Theorem components_are_split_at_commas (components : string) :
  PyStr.join "," (PyStr.split_comma components) = components
  /\ List.length (map PyStr.strip (PyStr.split_comma components))
     = S (PyStr.commas components)
  /\ Forall (fun piece => PyStr.commas piece = 0)
            (PyStr.split_comma components).
Proof.
  rewrite length_map.
  induction components as [|c s (J & L & F)].
  - repeat split. repeat constructor.
  - simpl PyStr.split_comma. simpl PyStr.commas.
    destruct (Ascii.eqb c ","%char) eqn:Hc.
    + apply Ascii.eqb_eq in Hc. subst c. repeat split.
      * destruct (split_comma_cons s) as (p & ps & E).
        rewrite join_cons by (rewrite E; discriminate). now rewrite J.
      * simpl. now rewrite L.
      * constructor; [reflexivity | exact F].
    + destruct (PyStr.split_comma s) as [|p ps] eqn:E.
      * destruct (split_comma_cons s) as (p & ps & E'). congruence.
      * repeat split.
        -- destruct ps as [|q ps]; simpl; simpl in J; now rewrite J.
        -- exact L.
        -- inversion F as [|? ? Fp Fps]; subst.
           constructor; [|exact Fps]. simpl. now rewrite Hc, Fp.
Qed.

(** X14.  Every entry of the component list is a piece of the text with
    the white space around it taken off: it neither begins nor ends
    with white space, and only white space was dropped. *)
Theorem components_are_stripped (components entry : string) :
  In entry (map PyStr.strip (PyStr.split_comma components)) ->
  PyStr.starts_blank entry = false
  /\ PyStr.ends_blank entry = false
  /\ exists piece before after,
      In piece (PyStr.split_comma components)
      /\ piece = before ++ entry ++ after
      /\ PyStr.blank before = true
      /\ PyStr.blank after = true.
Proof.
  intros H. apply in_map_iff in H. destruct H as (piece & <- & Hin).
  unfold PyStr.strip.
  destruct (lstrip_spec piece) as (before & E & B & S).
  destruct (rstrip_spec (PyStr.lstrip piece)) as (after & E' & B' & S').
  repeat split.
  - now apply rstrip_keeps_start.
  - exact S'.
  - exists piece, before, after. repeat split; auto.
    now rewrite <- E', <- E.
Qed.

Lemma components_are_stripped_witness :
  PyStr.starts_blank "ChatInput-D9hjW" = false
  /\ PyStr.ends_blank "ChatInput-D9hjW" = false
  /\ exists piece before after,
      In piece (PyStr.split_comma "ParseData-r4Fhk, ChatInput-D9hjW ")
      /\ piece = before ++ "ChatInput-D9hjW" ++ after
      /\ PyStr.blank before = true
      /\ PyStr.blank after = true.
Proof.
  apply (components_are_stripped "ParseData-r4Fhk, ChatInput-D9hjW ").
  right; left; reflexivity.
Defined.

(* ================================================================= *)
(** ** What is printed and saved is ASCII *)










